(** * supabase-react: registration, login and the session observer

    A shallow embedding of the client code of the application
    ([src/App.jsx], [src/components/Login.jsx], [src/components/Register.jsx],
    [src/components/Dashboard.jsx]).

    The components are glue around a hosted service, so the embedding is a
    small state-and-exception monad over one [World]: the React state of
    the four components, the browser location, the registry of auth-state
    callbacks held by the service client, the state of the hosted service
    itself (abstract, reached only through the client interface), and a log
    of the outward calls in the order they are made. *)

From Stdlib Require Import Ascii String List Bool ZArith Lia.
From stdpp Require Import base option list gmap strings.
Import ListNotations.

Local Open Scope string_scope.

(** ** Data carried by the service client *)

(** The auth user: [user.id], [user.email]. *)
Record User := mkUser { id : string; email : string }.

(** A session as the observer reads it: [session.user]; a field that is
    missing reads as [None]. *)
Record Session := mkSession { session_user : option User }.

(** An error object of the client, or any thrown value read through
    [.message]. *)
Record JsError := mkError { message : string }.

(** [session?.user ?? null] *)
Definition session_user_or_null (session : option Session) : option User :=
  match session with
  | Some s => session_user s
  | None => None
  end.

(** A JS string read from an object field: [None] is [undefined]. *)
Definition field := option string.

(** The object literal handed to [supabase.auth.signUp]. *)
Record SignUpArgs := mkSignUpArgs {
  su_email : field;
  su_password : field;
  su_display_name : field;   (* options.data.display_name *)
  su_phone : field           (* options.data.phone *)
}.

(** [{ data: { user }, error }] as [signUp] resolves. *)
Record SignUpResult := mkSignUpResult {
  data_user : option User;
  signUp_error : option JsError
}.

(** One row given to [.from('profiles').insert([...])]. *)
Record ProfileRow := mkProfileRow {
  row_id : string;
  row_display_name : field;
  row_email : field;
  row_phone : field
}.

(** How the promise of [getSession] settles: a session, an error with no
    session, neither, or a rejection. *)
Inductive GetSessionResult :=
| GotSession (s : Session)
| NoSession
| SessionError (e : JsError)
| SessionRejected (e : JsError).

(** [data.session] of a fulfilled [getSession]. *)
Definition data_session (r : GetSessionResult) : option Session :=
  match r with
  | GotSession s => Some s
  | _ => None
  end.

(** How the promise of [signOut] settles; the caller looks only at a
    rejection. *)
Inductive SignOutResult :=
| SignedOut (error : option JsError)
| SignOutRejected (e : JsError).

(** The client handle [supabase] of [./config/supabase], which is not among
    the sources: the operations the components call are taken as
    parameters, each a transition of the hosted service's state [B]. *)
Class Supabase (B : Type) := {
  auth_signUp : SignUpArgs -> B -> SignUpResult * B;
  auth_signInWithPassword : string -> string -> B -> option JsError * B;
  auth_signOut : B -> SignOutResult * B;
  auth_getUser : B -> option User * B;
  auth_getSession : B -> GetSessionResult * B;
  from_insert : string -> list ProfileRow -> B -> option JsError * B
}.

(** ** Outward effects, in the order they happen *)

(** Who called the [setUser] of [App]. *)
Inductive Writer :=
| ByGetSession                 (* the [.then] of [getSession] *)
| BySubscription (sub : nat)   (* the callback of [onAuthStateChange] *)
| ByHandleLogin                (* [handleLogin] *)
| ByHandleLogout.              (* [handleLogout] *)

Inductive Effect :=
| PreventDefault
| CallSignUp (args : SignUpArgs)
| CallInsert (table : string) (rows : list ProfileRow)
| CallSignInWithPassword (email password : string)
| CallSignOut
| CallGetUser
| CallGetSession
| CallOnAuthStateChange (sub : nat)
| CallUnsubscribe (sub : nat)
| Navigate (to : string) (state_message : option string)
| ToastShow (severity summary detail : string) (life : Z)
| ConsoleError (label detail : string)
| AppSetUser (by_ : Writer) (value : option User).

(** ** Component state *)

Record AppState := mkApp {
  app_user : option User;                  (* useState(null) *)
  app_mounted : bool;
  app_subscription : option nat;           (* held by the effect's cleanup *)
  app_pending : option GetSessionResult    (* the unsettled [getSession] *)
}.

Record RegisterState := mkRegister {
  formData : gmap string string;
  reg_loading : bool;
  reg_error : option string
}.

Record LoginState := mkLogin {
  login_email : string;
  login_password : string;
  login_loading : bool
}.

Record DashboardState := mkDashboard {
  dash_user : option User
}.

Section Client.

Context {B : Type} `{Supabase B}.

Record World := mkWorld {
  backend : B;
  listeners : list nat;      (* callbacks registered with the client *)
  next_sub : nat;
  location : string;         (* window.location.pathname *)
  log : list Effect;
  app : AppState;
  register : RegisterState;
  login : LoginState;
  dashboard : DashboardState
}.

Definition set_backend (b : B) (w : World) : World :=
  mkWorld b (listeners w) (next_sub w) (location w) (log w) (app w)
          (register w) (login w) (dashboard w).
Definition set_listeners (l : list nat) (w : World) : World :=
  mkWorld (backend w) l (next_sub w) (location w) (log w) (app w)
          (register w) (login w) (dashboard w).
Definition set_next_sub (n : nat) (w : World) : World :=
  mkWorld (backend w) (listeners w) n (location w) (log w) (app w)
          (register w) (login w) (dashboard w).
Definition set_location (p : string) (w : World) : World :=
  mkWorld (backend w) (listeners w) (next_sub w) p (log w) (app w)
          (register w) (login w) (dashboard w).
Definition set_log (l : list Effect) (w : World) : World :=
  mkWorld (backend w) (listeners w) (next_sub w) (location w) l (app w)
          (register w) (login w) (dashboard w).
Definition set_app (a : AppState) (w : World) : World :=
  mkWorld (backend w) (listeners w) (next_sub w) (location w) (log w) a
          (register w) (login w) (dashboard w).
Definition set_register (r : RegisterState) (w : World) : World :=
  mkWorld (backend w) (listeners w) (next_sub w) (location w) (log w) (app w)
          r (login w) (dashboard w).
Definition set_login (l : LoginState) (w : World) : World :=
  mkWorld (backend w) (listeners w) (next_sub w) (location w) (log w) (app w)
          (register w) l (dashboard w).
Definition set_dashboard (d : DashboardState) (w : World) : World :=
  mkWorld (backend w) (listeners w) (next_sub w) (location w) (log w) (app w)
          (register w) (login w) d.

(** ** The monad of handlers: state, and a thrown value or a result *)

Definition M (A : Type) : Type := World -> (JsError + A) * World.

Definition ret {A} (a : A) : M A := fun w => (inr a, w).

Definition bind {A C} (m : M A) (k : A -> M C) : M C :=
  fun w =>
    match m w with
    | (inr a, w') => k a w'
    | (inl e, w') => (inl e, w')
    end.

Definition throw {A} (e : JsError) : M A := fun w => (inl e, w).

(** [try { body } catch (err) { handler }] *)
Definition try_catch {A} (body : M A) (handler : JsError -> M A) : M A :=
  fun w =>
    match body w with
    | (inr a, w') => (inr a, w')
    | (inl e, w') => handler e w'
    end.

(** [try { body } finally { final }] *)
Definition try_finally {A} (body : M A) (final : M unit) : M A :=
  fun w =>
    match body w with
    | (r, w') =>
        match final w' with
        | (inr _, w'') => (r, w'')
        | (inl e, w'') => (inl e, w'')
        end
    end.

Definition get {A} (f : World -> A) : M A := fun w => (inr (f w), w).
Definition modify (f : World -> World) : M unit := fun w => (inr tt, f w).

(** The world a handler leaves behind. *)
Definition exec {A} (m : M A) (w : World) : World := snd (m w).

End Client.

Arguments World B : clear implicits.
Arguments M B A : clear implicits.

Declare Scope js_scope.
Delimit Scope js_scope with js.
Notation "x <- m ;; k" := (bind m (fun x => k))
  (at level 100, m at next level, right associativity) : js_scope.
Notation "m ;; k" := (bind m (fun _ => k))
  (at level 100, right associativity) : js_scope.
Local Open Scope js_scope.

(** ** Primitive operations of the handlers *)

Section Primitives.

Context {B : Type} `{Supabase B}.

Definition emit (e : Effect) : M B unit :=
  modify (fun w => set_log (log w ++ [e]) w).

(** A call of the client: logged, then answered by the service. *)
Definition call {A} (e : Effect) (op : B -> A * B) : M B A :=
  fun w =>
    let (r, b) := op (backend w) in
    (inr r, set_backend b (set_log (log w ++ [e]) w)).

(** [if (error) throw error] *)
Definition throw_if (error : option JsError) : M B unit :=
  match error with
  | Some e => throw e
  | None => ret tt
  end.

(** [navigate(to, { state: { message } })] of react-router. *)
Definition navigate (to : string) (state_message : option string) : M B unit :=
  emit (Navigate to state_message) ;;
  modify (set_location to).

(** The thrown value of reading [.id] of [null]. *)
Definition TypeError_id_of_null : JsError :=
  mkError "Cannot read properties of null (reading 'id')".

End Primitives.

(** ** App.jsx *)

Module App.
Section App.

Context {B : Type} `{Supabase B}.

Definition with_user (v : option User) (a : AppState) : AppState :=
  mkApp v (app_mounted a) (app_subscription a) (app_pending a).
Definition with_pending (p : option GetSessionResult) (a : AppState) : AppState :=
  mkApp (app_user a) (app_mounted a) (app_subscription a) p.
Definition with_subscription (s : option nat) (a : AppState) : AppState :=
  mkApp (app_user a) (app_mounted a) s (app_pending a).

(** [const [user, setUser] = useState(null)]: the setter. The call is
    logged with its caller; React drops the update of a component that is
    no longer mounted. *)
Definition setUser (by_ : Writer) (v : option User) : M B unit :=
  emit (AppSetUser by_ v) ;;
  modify (fun w =>
    if app_mounted (app w) then set_app (with_user v (app w)) w else w).

(** [supabase.auth.getSession()]: the promise is kept until it settles. *)
Definition getSession : M B unit :=
  r <- call CallGetSession auth_getSession ;;
  modify (fun w => set_app (with_pending (Some r) (app w)) w).

(** [.then(({ data: { session } }) => { setUser(session?.user ?? null) })];
    a rejected promise has no handler and runs nothing. *)
Definition getSession_then : M B unit :=
  p <- get (fun w => app_pending (app w)) ;;
  modify (fun w => set_app (with_pending None (app w)) w) ;;
  match p with
  | None => ret tt
  | Some (SessionRejected _) => ret tt
  | Some r => setUser ByGetSession (session_user_or_null (data_session r))
  end.

(** Modelled from the spec: the session client's
    [supabase.auth.onAuthStateChange(callback)], subscribe-to-auth-changes
    (callback) giving an unsubscribe handle. The client keeps the callback
    under a fresh number and hands that back as [data.subscription]. *)
Definition onAuthStateChange : M B nat :=
  sub <- get next_sub ;;
  emit (CallOnAuthStateChange sub) ;;
  modify (fun w => set_next_sub (S sub) (set_listeners (listeners w ++ [sub]) w)) ;;
  ret sub.

(** The callback registered above:
    [(_event, session) => { setUser(session?.user ?? null) }]. *)
Definition authCallback (sub : nat) (_event : string) (session : option Session)
  : M B unit :=
  setUser (BySubscription sub) (session_user_or_null session).

(** Modelled from the spec: the session client's
    [subscription.unsubscribe()], after which the client no longer holds
    the callback. *)
Definition unsubscribe (sub : nat) : M B unit :=
  emit (CallUnsubscribe sub) ;;
  modify (fun w =>
    set_listeners (List.filter (fun s => negb (Nat.eqb s sub)) (listeners w)) w).

(** The first [useEffect(..., [])]. *)
Definition sessionEffect : M B unit :=
  getSession ;;
  sub <- onAuthStateChange ;;
  modify (fun w => set_app (with_subscription (Some sub) (app w)) w).

(** Its cleanup: [return () => subscription.unsubscribe()]. *)
Definition sessionEffect_cleanup : M B unit :=
  s <- get (fun w => app_subscription (app w)) ;;
  match s with
  | Some sub =>
      unsubscribe sub ;;
      modify (fun w => set_app (with_subscription None (app w)) w)
  | None => ret tt
  end.

(** The second [useEffect(..., [user, navigate])]. *)
Definition rootEffect : M B unit :=
  p <- get location ;;
  if String.eqb p "/" then
    u <- get (fun w => app_user (app w)) ;;
    match u with
    | Some _ => navigate "/dashboard" None
    | None => navigate "/login" None
    end
  else ret tt.

Definition handleLogin (username : option User) : M B unit :=
  setUser ByHandleLogin username.

Definition handleLogout : M B unit :=
  setUser ByHandleLogout None.

(** What a route renders. *)
Inductive Element :=
| NavigateTo (to : string) (replace : bool)
| LoginView (onLogin : option User -> M B unit)
| RegisterView
| DashboardView (user : option User) (onLogout : M B unit)
| NoMatch.

(** [const ProtectedRoute = ({ children }) => ...] *)
Definition ProtectedRoute (user : option User) (children : Element) : Element :=
  match user with
  | None => NavigateTo "/login" true
  | Some _ => children
  end.

(** The [<Routes>] table, in source order. *)
Definition routes (user : option User) : list (string * Element) :=
  [ ("/login",
      match user with
      | Some _ => NavigateTo "/dashboard" true
      | None => LoginView handleLogin
      end);
    ("/register",
      match user with
      | Some _ => NavigateTo "/dashboard" true
      | None => RegisterView
      end);
    ("/dashboard",
      ProtectedRoute user (DashboardView user handleLogout));
    ("/",
      NavigateTo (match user with Some _ => "/dashboard" | None => "/login" end)
                 true) ].

(** The element of the route whose path is the current pathname; nothing
    is rendered when no route has it. The pathname is compared literally
    with the paths of the table: the router's folding of case and of a
    trailing slash is not modelled. *)
Definition Routes (pathname : string) (user : option User) : Element :=
  match List.find (fun r => String.eqb (fst r) pathname) (routes user) with
  | Some (_, element) => element
  | None => NoMatch
  end.

(** An element that shows one of the three views. *)
Definition is_view (e : Element) : bool :=
  match e with
  | LoginView _ | RegisterView | DashboardView _ _ => true
  | NavigateTo _ _ | NoMatch => false
  end.

End App.
End App.

(** ** components/Login.jsx *)

Module Login.
Section Login.

Context {B : Type} `{Supabase B}.

Definition setEmail (v : string) : M B unit :=
  modify (fun w =>
    set_login (mkLogin v (login_password (login w)) (login_loading (login w))) w).

Definition setPassword (v : string) : M B unit :=
  modify (fun w =>
    set_login (mkLogin (login_email (login w)) v (login_loading (login w))) w).

Definition setLoading (v : bool) : M B unit :=
  modify (fun w =>
    set_login (mkLogin (login_email (login w)) (login_password (login w)) v) w).

(** [const handleSubmit = async (e) => { ... }]; the component takes no
    props, so [onLogin] is out of its reach. *)
Definition handleSubmit : M B unit :=
  emit PreventDefault ;;
  setLoading true ;;
  try_finally
    (try_catch
       (email <- get (fun w => login_email (login w)) ;;
        password <- get (fun w => login_password (login w)) ;;
        error <- call (CallSignInWithPassword email password)
                      (auth_signInWithPassword email password) ;;
        throw_if error)
       (fun error =>
          emit (ToastShow "error" "Error" (message error) 3000)))
    (setLoading false).

(** [onClick={() => navigate('/register')}] *)
Definition goRegister : M B unit := navigate "/register" None.

End Login.
End Login.

(** ** components/Register.jsx *)

Module Register.

(** [useState({ displayName: '', email: '', password: '', phone: '' })] *)
Definition initialFormData : gmap string string :=
  <["displayName" := ""]> (<["email" := ""]> (<["password" := ""]>
    (<["phone" := ""]> ∅))).

(** The updater of [handleChange]: [prev => ({ ...prev, [name]: value })]. *)
Definition updateField (name value : string) (prev : gmap string string)
  : gmap string string :=
  <[name := value]> prev.

Definition successMessage : string :=
  "Registro exitoso. Por favor, verifica tu correo electrónico para activar tu cuenta.".

Section Register.

Context {B : Type} `{Supabase B}.

Definition setFormData (f : gmap string string -> gmap string string) : M B unit :=
  modify (fun w =>
    set_register (mkRegister (f (formData (register w)))
                             (reg_loading (register w))
                             (reg_error (register w))) w).

Definition setLoading (v : bool) : M B unit :=
  modify (fun w =>
    set_register (mkRegister (formData (register w)) v
                             (reg_error (register w))) w).

Definition setError (v : option string) : M B unit :=
  modify (fun w =>
    set_register (mkRegister (formData (register w))
                             (reg_loading (register w)) v) w).

(** [const handleChange = (e) => { const { name, value } = e.target; ... }] *)
Definition handleChange (name value : string) : M B unit :=
  setFormData (updateField name value).

(** [const handleSubmit = async (e) => { ... }]; [formData] is the value
    the handler closed over when it was called. *)
Definition handleSubmit : M B unit :=
  formData <- get (fun w => formData (register w)) ;;
  emit PreventDefault ;;
  setLoading true ;;
  setError None ;;
  try_finally
    (try_catch
       (r <- call (CallSignUp (mkSignUpArgs (formData !! "email")
                                              (formData !! "password")
                                              (formData !! "displayName")
                                              (formData !! "phone")))
                  (auth_signUp (mkSignUpArgs (formData !! "email")
                                             (formData !! "password")
                                             (formData !! "displayName")
                                             (formData !! "phone"))) ;;
        let user := data_user r in
        throw_if (signUp_error r) ;;
        user_id <- match user with
                   | Some u => ret (id u)
                   | None => throw TypeError_id_of_null
                   end ;;
        profileError <-
          call (CallInsert "profiles"
                  [mkProfileRow user_id (formData !! "displayName")
                                (formData !! "email") (formData !! "phone")])
               (from_insert "profiles"
                  [mkProfileRow user_id (formData !! "displayName")
                                (formData !! "email") (formData !! "phone")]) ;;
        throw_if profileError ;;
        navigate "/login" (Some successMessage))
       (fun err => setError (Some (message err))))
    (setLoading false).

(** [onClick={() => navigate('/login')}] *)
Definition goLogin : M B unit := navigate "/login" None.

(** [{error && (<Message severity="error" text={error} ... />)}]: the text
    of the banner, when one is rendered. *)
Definition errorBanner (r : RegisterState) : option string :=
  match reg_error r with
  | Some text => if String.eqb text "" then None else Some text
  | None => None
  end.

End Register.
End Register.

(** ** components/Dashboard.jsx *)

Module Dashboard.

(** [s.split('@')[0]] *)
Fixpoint before_at (s : string) : string :=
  match s with
  | EmptyString => EmptyString
  | String c rest =>
      if Ascii.eqb c "@"%char then EmptyString else String c (before_at rest)
  end.

(** What the view shows of its [user] state. *)
Record View := mkView {
  greeting : option string;   (* user?.email?.split('@')[0] *)
  shown_email : option string; (* user?.email *)
  shown_id : option string     (* user?.id *)
}.

Definition render (d : DashboardState) : View :=
  mkView (option_map (fun u => before_at (email u)) (dash_user d))
         (option_map email (dash_user d))
         (option_map id (dash_user d)).

Section Dashboard.

Context {B : Type} `{Supabase B}.

(** The [setUser] of the component's own [useState(null)]. *)
Definition setUser (v : option User) : M B unit :=
  modify (set_dashboard (mkDashboard v)).

(** [const getUser = async () => { ... }], called from the mount effect. *)
Definition getUser : M B unit :=
  user <- call CallGetUser auth_getUser ;;
  setUser user.

(** [await supabase.auth.signOut()] *)
Definition await_signOut : M B unit :=
  r <- call CallSignOut auth_signOut ;;
  match r with
  | SignedOut _ => ret tt
  | SignOutRejected e => throw e
  end.

(** [const handleLogout = async () => { ... }]; the component takes no
    props, so [onLogout] is out of its reach. *)
Definition handleLogout : M B unit :=
  try_catch await_signOut
    (fun error => emit (ConsoleError "Error al cerrar sesión:" (message error))).

End Dashboard.
End Dashboard.

(** ** The event loop *)

#[global] Instance User_eq_dec : EqDecision User.
Proof. solve_decision. Defined.

(** What can happen to the page: the lifecycle of [App], the settling of
    its [getSession] promise, a notification from the client, and the user
    acting on one of the forms. *)
Inductive Event :=
| AppMount
| AppUnmount
| GetSessionSettled
| AuthStateChange (event : string) (session : option Session)
| LoginSetEmail (value : string)
| LoginSetPassword (value : string)
| LoginSubmit
| LoginGoRegister
| RegisterChange (name value : string)
| RegisterSubmit
| RegisterGoLogin
| DashboardMount
| DashboardLogout.

Section Loop.

Context {B : Type} `{Supabase B}.

Fixpoint for_each {A} (f : A -> M B unit) (l : list A) : M B unit :=
  match l with
  | [] => ret tt
  | a :: rest => f a ;; for_each f rest
  end.

(** The second effect of [App] runs again when [user] has changed. *)
Definition rerender (before : option User) : M B unit :=
  now <- get (fun w => app_user (app w)) ;;
  if decide (now = before) then ret tt else App.rootEffect.

(** The mount of [App]: a fresh state, then its two effects in source
    order. The navigation a rendered [<Navigate>] element makes by itself is
    not part of an event. *)
Definition mount : M B unit :=
  mounted <- get (fun w => app_mounted (app w)) ;;
  if (mounted : bool) then ret tt
  else
    modify (fun w => set_app (mkApp None true None (app_pending (app w))) w) ;;
    App.sessionEffect ;;
    App.rootEffect.

Definition unmount : M B unit :=
  mounted <- get (fun w => app_mounted (app w)) ;;
  if (mounted : bool) then
    App.sessionEffect_cleanup ;;
    modify (fun w =>
      set_app (mkApp (app_user (app w)) false (app_subscription (app w))
                     (app_pending (app w))) w)
  else ret tt.

(** Modelled from the spec: an auth-state notification of the session
    client, which calls every callback it holds. *)
Definition notify (event : string) (session : option Session) : M B unit :=
  subs <- get listeners ;;
  for_each (fun sub => App.authCallback sub event session) subs.

Definition handler (e : Event) : M B unit :=
  match e with
  | AppMount => mount
  | AppUnmount => unmount
  | GetSessionSettled =>
      before <- get (fun w => app_user (app w)) ;;
      App.getSession_then ;;
      rerender before
  | AuthStateChange event session =>
      before <- get (fun w => app_user (app w)) ;;
      notify event session ;;
      rerender before
  | LoginSetEmail v => Login.setEmail v
  | LoginSetPassword v => Login.setPassword v
  | LoginSubmit => Login.handleSubmit
  | LoginGoRegister => Login.goRegister
  | RegisterChange name value => Register.handleChange name value
  | RegisterSubmit => Register.handleSubmit
  | RegisterGoLogin => Register.goLogin
  | DashboardMount => Dashboard.getUser
  | DashboardLogout => Dashboard.handleLogout
  end.

Definition step (e : Event) (w : World B) : World B := exec (handler e) w.

Definition run (events : list Event) (w : World B) : World B :=
  fold_left (fun w e => step e w) events w.

(** The page before anything has run. *)
Definition initial (b : B) (pathname : string) : World B :=
  mkWorld b [] 0 pathname []
          (mkApp None false None None)
          (mkRegister Register.initialFormData false None)
          (mkLogin "" "" false)
          (mkDashboard None).

(** The calls of [App]'s [setUser] in a log, with their callers. *)
Definition is_write (e : Effect) : bool :=
  match e with AppSetUser _ _ => true | _ => false end.

Definition writes (l : list Effect) : list Effect := List.filter is_write l.

(** The calls of [setUser] made by the callback of subscription [sub]. *)
Definition is_write_of (sub : nat) (e : Effect) : bool :=
  match e with
  | AppSetUser (BySubscription s) _ => Nat.eqb s sub
  | _ => false
  end.

Definition writes_of (sub : nat) (l : list Effect) : list Effect :=
  List.filter (is_write_of sub) l.

Definition is_navigate (e : Effect) : bool :=
  match e with Navigate _ _ => true | _ => false end.

Definition is_insert (e : Effect) : bool :=
  match e with CallInsert _ _ => true | _ => false end.

End Loop.

(** ** Vocabulary of the properties *)

Section Vocabulary.

Context {B : Type} `{Supabase B}.

(** The arguments of [signUp] and the profile row, as [handleSubmit] builds
    them from the form. *)
Definition signUp_args_of (fd : gmap string string) : SignUpArgs :=
  mkSignUpArgs (fd !! "email") (fd !! "password")
               (fd !! "displayName") (fd !! "phone").

Definition profile_row_of (u : User) (fd : gmap string string) : ProfileRow :=
  mkProfileRow (id u) (fd !! "displayName") (fd !! "email") (fd !! "phone").

(** [App] is mounted and the callback it registered is still held by the
    client. *)
Definition subscribed (w : World B) : bool :=
  app_mounted (app w) &&
  match app_subscription (app w) with
  | Some sub => existsb (Nat.eqb sub) (listeners w)
  | None => false
  end.

(** The events of initialization: mounting [App], and the settling of the
    [getSession] promise it is waiting for. *)
Definition initialising (w : World B) (e : Event) : bool :=
  match e with
  | AppMount => negb (app_mounted (app w))
  | GetSessionSettled =>
      match app_pending (app w) with Some _ => true | None => false end
  | _ => false
  end.

Definition is_notification (e : Event) : bool :=
  match e with AuthStateChange _ _ => true | _ => false end.

(** A call of [setUser] made by a callback of [onAuthStateChange]. *)
Definition by_subscription (e : Effect) : bool :=
  match e with
  | AppSetUser (BySubscription _) _ => true
  | _ => false
  end.

(** The notifications of a list, as events. *)
Definition notifications (l : list (string * option Session)) : list Event :=
  map (fun n => AuthStateChange (fst n) (snd n)) l.

(** What the router does with an element: it redirects, shows a view, or
    shows nothing. *)
Inductive ViewName := LoginPage | RegisterPage | DashboardPage.

Inductive Outcome :=
| Redirect (to : string)
| Shows (view : ViewName)
| Nothing.

Definition outcome (e : App.Element (B:=B)) : Outcome :=
  match e with
  | App.NavigateTo to _ => Redirect to
  | App.LoginView _ => Shows LoginPage
  | App.RegisterView => Shows RegisterPage
  | App.DashboardView _ _ => Shows DashboardPage
  | App.NoMatch => Nothing
  end.

(** How [getSession] can fail. *)
Definition session_fetch_failed (r : GetSessionResult) : bool :=
  match r with
  | SessionError _ | SessionRejected _ => true
  | GotSession _ | NoSession => false
  end.

(** The world after a notification has reached every callback the client
    holds, before [App] renders again. *)
Definition notified (session : option Session) (w : World B) : World B :=
  set_app (match listeners w with
           | [] => app w
           | _ :: _ =>
               if app_mounted (app w)
               then App.with_user (session_user_or_null session) (app w)
               else app w
           end)
    (set_log
       (log w ++ map (fun sub => AppSetUser (BySubscription sub)
                                   (session_user_or_null session))
                     (listeners w))
       w).

(** The calls of [setUser] an event can make: a notification makes them
    through the callbacks the client holds, the settling of a pending
    [getSession] through its [.then]; no other event makes any. *)
Definition may_emit (w : World B) (e : Event) (x : Effect) : Prop :=
  match x with
  | AppSetUser by_ _ =>
      match e, by_ with
      | AuthStateChange _ _, BySubscription sub => In sub (listeners w)
      | GetSessionSettled, ByGetSession => app_pending (app w) <> None
      | _, _ => False
      end
  | _ => True
  end.

(** While [App] is mounted it holds a subscription the client has
    numbered. *)
Definition holds_subscription (w : World B) : Prop :=
  app_mounted (app w) = true ->
  exists sub, app_subscription (app w) = Some sub /\ sub < next_sub w.

End Vocabulary.

(** ** A service in memory, for worked examples *)

Module Mem.

Record Service := mkService {
  offline : bool;                              (* every request fails *)
  accounts : list (string * string * User);   (* email, password, user *)
  profiles : list ProfileRow;
  current : option Session
}.

Definition fetch_failed : JsError := mkError "Failed to fetch".

Definition has_email (e : string) (s : Service) : bool :=
  existsb (fun a => String.eqb (fst (fst a)) e) (accounts s).

Definition signUp (args : SignUpArgs) (s : Service) : SignUpResult * Service :=
  if offline s then (mkSignUpResult None (Some fetch_failed), s) else
  match su_email args, su_password args with
  | Some e, Some p =>
      if has_email e s then
        (mkSignUpResult None (Some (mkError "User already registered")), s)
      else
        let u := mkUser ("uid-" ++ e) e in
        (mkSignUpResult (Some u) None,
         mkService false (accounts s ++ [(e, p, u)]) (profiles s) (current s))
  | _, _ =>
      (mkSignUpResult None (Some (mkError "Anonymous sign-ins are disabled")), s)
  end.

Definition signIn (e p : string) (s : Service) : option JsError * Service :=
  if offline s then (Some fetch_failed, s) else
  match List.find (fun a => String.eqb (fst (fst a)) e
                            && String.eqb (snd (fst a)) p) (accounts s) with
  | Some (_, u) =>
      (None,
       mkService false (accounts s) (profiles s) (Some (mkSession (Some u))))
  | None => (Some (mkError "Invalid login credentials"), s)
  end.

Definition signOut (s : Service) : SignOutResult * Service :=
  if offline s then (SignOutRejected fetch_failed, s) else
  (SignedOut None, mkService false (accounts s) (profiles s) None).

Definition getUser (s : Service) : option User * Service :=
  if offline s then (None, s) else (session_user_or_null (current s), s).

Definition getSession (s : Service) : GetSessionResult * Service :=
  if offline s then (SessionError fetch_failed, s) else
  (match current s with Some x => GotSession x | None => NoSession end, s).

Definition has_row (i : string) (s : Service) : bool :=
  existsb (fun r => String.eqb (row_id r) i) (profiles s).

Definition insert (table : string) (rows : list ProfileRow) (s : Service)
  : option JsError * Service :=
  if offline s then (Some fetch_failed, s)
  else if negb (String.eqb table "profiles") then
    (Some (mkError "relation does not exist"), s)
  else if existsb (fun r => has_row (row_id r) s) rows then
    (Some (mkError "duplicate key value violates unique constraint"), s)
  else
    (None, mkService false (accounts s) (profiles s ++ rows) (current s)).

#[global] Instance service : Supabase Service := {
  auth_signUp := signUp;
  auth_signInWithPassword := signIn;
  auth_signOut := signOut;
  auth_getUser := getUser;
  auth_getSession := getSession;
  from_insert := insert
}.

Definition empty : Service := mkService false [] [] None.

Definition unreachable : Service := mkService true [] [] None.

Definition alice : User := mkUser "uid-a@b.com" "a@b.com".

(** One account, signed in, and no row in [profiles]. *)
Definition alice_signed_in : Service :=
  mkService false [("a@b.com", "secret", alice)] []
            (Some (mkSession (Some alice))).

(** One account, nobody signed in. *)
Definition alice_signed_out : Service :=
  mkService false [("a@b.com", "secret", alice)] [] None.

(** The registration form filled in, on the page of an empty service. *)
Definition form_filled : World Service :=
  run [RegisterChange "displayName" "Al"; RegisterChange "email" "a@b.com";
       RegisterChange "password" "secret"; RegisterChange "phone" "600"]
      (initial empty "/register").

(** The same form where the address is already registered. *)
Definition form_filled_again : World Service :=
  run [RegisterChange "displayName" "Al"; RegisterChange "email" "a@b.com";
       RegisterChange "password" "secret"; RegisterChange "phone" "600"]
      (initial alice_signed_out "/register").

(** The service once the form above has been submitted: the account, then
    the account and its profile row. *)
Definition with_account : Service :=
  mkService false [("a@b.com", "secret", alice)] [] None.

Definition with_profile : Service :=
  mkService false [("a@b.com", "secret", alice)]
            [mkProfileRow "uid-a@b.com" (Some "Al") (Some "a@b.com") (Some "600")]
            None.

(** [App] mounted on the login page, its session fetch settled. *)
Definition observing : World Service :=
  run [AppMount; GetSessionSettled] (initial alice_signed_out "/login").

Definition alice_session : option Session := Some (mkSession (Some alice)).

(** The login form with a wrong password. *)
Definition wrong_password : World Service :=
  run [AppMount; GetSessionSettled;
       LoginSetEmail "a@b.com"; LoginSetPassword "wrong"]
      (initial alice_signed_out "/login").

End Mem.


(** ** Vocabulary of the further properties *)

(** The names of the four inputs of the registration form. *)
Definition form_fields : list string :=
  ["displayName"; "email"; "password"; "phone"].

(** Whether a string has an [@] in it. *)
Fixpoint has_at (s : string) : bool :=
  match s with
  | EmptyString => false
  | String c rest => Ascii.eqb c "@"%char || has_at rest
  end.

(** A call of [setUser] made through [handleLogin] or [handleLogout], the
    callbacks [App] passes down as [onLogin] and [onLogout]. *)
Definition by_prop_callback (e : Effect) : bool :=
  match e with
  | AppSetUser ByHandleLogin _ | AppSetUser ByHandleLogout _ => true
  | _ => false
  end.

Section FurtherVocabulary.

Context {B : Type} `{Supabase B}.

(** The client holds the callback of a mounted [App] and nothing else. *)
Definition registry_shape (w : World B) : Prop :=
  listeners w = match app_subscription (app w) with
                | Some sub => [sub]
                | None => []
                end
  /\ app_mounted (app w) = match app_subscription (app w) with
                           | Some _ => true
                           | None => false
                           end.

(** Every input of the form holds a string. *)
Definition form_complete (fd : gmap string string) : Prop :=
  List.Forall (fun k => fd !! k <> None) form_fields.

End FurtherVocabulary.

(** ** A service of fixed answers, for worked examples *)

Module Canned.

Record Service := mkService {
  signUp_answer : SignUpResult;
  signIn_answer : option JsError;
  signOut_answer : SignOutResult;
  getUser_answer : option User;
  getSession_answer : GetSessionResult;
  insert_answer : option JsError
}.

#[global] Instance service : Supabase Service := {
  auth_signUp := fun _ s => (signUp_answer s, s);
  auth_signInWithPassword := fun _ _ s => (signIn_answer s, s);
  auth_signOut := fun s => (signOut_answer s, s);
  auth_getUser := fun s => (getUser_answer s, s);
  auth_getSession := fun s => (getSession_answer s, s);
  from_insert := fun _ _ s => (insert_answer s, s)
}.

(** Sign-up resolves with neither a user nor an error. *)
Definition no_user_no_error : Service :=
  mkService (mkSignUpResult None None) None (SignedOut None) None NoSession None.

(** The promise of [getSession] is rejected. *)
Definition fetch_rejected : Service :=
  mkService (mkSignUpResult None None) None (SignedOut None) None
            (SessionRejected (mkError "lock not acquired")) None.

(** Sign-out resolves, but with an error object. *)
Definition signOut_error : Service :=
  mkService (mkSignUpResult None None) None
            (SignedOut (Some (mkError "session not found"))) None NoSession None.

End Canned.

Module Scenes.

(** A profile row left behind for an address that has no account. *)
Definition orphan_row : Mem.Service :=
  Mem.mkService false []
    [mkProfileRow "uid-a@b.com" (Some "Al") (Some "a@b.com") (Some "600")]
    None.

Definition fill_form : list Event :=
  [RegisterChange "displayName" "Al"; RegisterChange "email" "a@b.com";
   RegisterChange "password" "secret"; RegisterChange "phone" "600"].

(** The registration form filled in, where the insert will be refused. *)
Definition form_over_orphan_row : World Mem.Service :=
  run fill_form (initial orphan_row "/register").

(** The registration form filled in, against the fixed answers. *)
Definition form_no_user : World Canned.Service :=
  run fill_form (initial Canned.no_user_no_error "/register").

(** A signed-in user whose location is the root. *)
Definition at_root : World Mem.Service :=
  set_location "/"
    (run [AppMount; GetSessionSettled] (initial Mem.alice_signed_in "/dashboard")).

(** [App] mounted, then torn down. *)
Definition torn_down : World Mem.Service :=
  run [AppMount; GetSessionSettled; AppUnmount]
      (initial Mem.alice_signed_in "/dashboard").

End Scenes.

(** * Properties *)

(** Unfolds a handler down to the calls of the service. *)
Ltac unfold_handler :=
  unfold step, exec, handler,
    Login.handleSubmit, Login.setLoading, Login.setEmail, Login.setPassword,
    Login.goRegister,
    Register.handleSubmit, Register.handleChange, Register.setFormData,
    Register.setLoading, Register.setError, Register.goLogin,
    Dashboard.handleLogout, Dashboard.await_signOut, Dashboard.getUser,
    Dashboard.setUser,
    navigate, call, emit, throw_if, try_finally, try_catch, bind, modify,
    get, throw, ret.

Ltac unfold_observer :=
  unfold mount, unmount, rerender, App.sessionEffect, App.sessionEffect_cleanup,
    App.getSession, App.getSession_then, App.onAuthStateChange,
    App.unsubscribe, App.setUser, App.rootEffect.

Ltac unfold_all := unfold_handler; unfold_observer; unfold_handler; cbn.

(** Splits on the answers of the service and on the tests of a handler. *)
Ltac split_calls :=
  repeat match goal with
  | |- context [auth_signUp ?a ?b] => destruct (auth_signUp a b) as [[? [?|]] ?]
  | |- context [auth_signInWithPassword ?a ?b ?c] =>
      destruct (auth_signInWithPassword a b c) as [[?|] ?]
  | |- context [auth_signOut ?a] => destruct (auth_signOut a) as [[?|?] ?]
  | |- context [auth_getUser ?a] => destruct (auth_getUser a) as [? ?]
  | |- context [auth_getSession ?a] => destruct (auth_getSession a) as [? ?]
  | |- context [from_insert ?a ?b ?c] => destruct (from_insert a b c) as [[?|] ?]
  | |- context [match ?x with Some _ => _ | None => _ end] => destruct x
  | |- context [if ?x then _ else _] => destruct x
  end; cbn.

(** Closes a goal [exists new, log' = log ++ new /\ Forall P new]. *)
Ltac close_log :=
  rewrite <- ?app_assoc; cbn;
  first [ exists []; split; [symmetry; apply app_nil_r | constructor]
        | eexists; split; [reflexivity | repeat constructor; cbn; auto] ].

(** ** Register.jsx *)

Section RegisterFacts.

Context {B : Type} `{Supabase B}.

(** C10. A change event naming field [name] with value [value] leaves a form
    that reads [value] at [name] and reads as before at every other field:
    changing one of displayName, email, password and phone never alters the
    other three. *)
Theorem handleChange_frame (w : World B) (name value k : string) :
  formData (register (exec (Register.handleChange name value) w)) !! k
  = if decide (k = name) then Some value else formData (register w) !! k.
Proof.
  unfold_handler. cbn. unfold Register.updateField.
  rewrite lookup_insert.
  destruct (decide (name = k)), (decide (k = name)); congruence.
Qed.

(** C4. When sign-up returns a new user and the insert returns no error,
    the handler makes, in this order and nothing else, the sign-up call,
    one insert into [profiles] of one row whose id is the new user's and
    whose display_name, email and phone are the form's, and the navigation
    to [/login] carrying the success message. *)
Theorem handleSubmit_success (w : World B) (u : User) (b1 b2 : B) :
  let fd := formData (register w) in
  auth_signUp (signUp_args_of fd) (backend w)
    = (mkSignUpResult (Some u) None, b1) ->
  from_insert "profiles" [profile_row_of u fd] b1 = (None, b2) ->
  let w' := exec Register.handleSubmit w in
  log w' = (log w ++ [PreventDefault;
                      CallSignUp (signUp_args_of fd);
                      CallInsert "profiles" [profile_row_of u fd];
                      Navigate "/login" (Some Register.successMessage)])%list
  /\ location w' = "/login"
  /\ backend w' = b2
  /\ reg_error (register w') = None
  /\ reg_loading (register w') = false.
Proof.
  intros fd Hup Hins. unfold signUp_args_of, profile_row_of in *.
  subst fd. unfold_handler. cbn.
  rewrite Hup. cbn. rewrite Hins. cbn.
  rewrite <- !app_assoc. cbn. repeat split.
Qed.

(** C5. When sign-up returns an error, the handler stores its message as
    the form's error, which the banner shows, and does nothing more: the
    sign-up call is its only call, so no insert is attempted, it does not
    navigate, and the service is left as sign-up left it. *)
Theorem handleSubmit_signUp_fails (w : World B) (du : option User)
    (e : JsError) (b1 : B) :
  let fd := formData (register w) in
  auth_signUp (signUp_args_of fd) (backend w)
    = (mkSignUpResult du (Some e), b1) ->
  let w' := exec Register.handleSubmit w in
  log w' = (log w ++ [PreventDefault; CallSignUp (signUp_args_of fd)])%list
  /\ List.filter is_insert (log w') = List.filter is_insert (log w)
  /\ List.filter is_navigate (log w') = List.filter is_navigate (log w)
  /\ backend w' = b1
  /\ location w' = location w
  /\ reg_error (register w') = Some (message e)
  /\ reg_loading (register w') = false
  /\ (message e <> "" ->
      Register.errorBanner (register w') = Some (message e)).
Proof.
  intros fd Hup. unfold signUp_args_of in *.
  subst fd. unfold_handler. cbn.
  rewrite Hup. cbn.
  rewrite <- !app_assoc. cbn.
  repeat split; try (rewrite List.filter_app; cbn; apply app_nil_r).
  intros Hne. unfold Register.errorBanner. cbn.
  destruct (String.eqb_spec (message e) ""); congruence.
Qed.

End RegisterFacts.

(** ** Login.jsx *)

Section LoginFacts.

Context {B : Type} `{Supabase B}.

(** C6. A login submission makes the sign-in call and, when that returns an
    error, shows one error toast with the error's message for 3000 ms;
    in neither case does the handler navigate, and in both it leaves the
    state of [App], the current user included, as it was. *)
Theorem login_handleSubmit_effects (w : World B) :
  let email := login_email (login w) in
  let password := login_password (login w) in
  let answer := auth_signInWithPassword email password (backend w) in
  let w' := exec Login.handleSubmit w in
  log w' = (log w ++ [PreventDefault; CallSignInWithPassword email password]
                  ++ match fst answer with
                     | Some error =>
                         [ToastShow "error" "Error" (message error) 3000]
                     | None => []
                     end)%list
  /\ List.filter is_navigate (log w') = List.filter is_navigate (log w)
  /\ location w' = location w
  /\ app w' = app w
  /\ backend w' = snd answer
  /\ login_loading (login w') = false.
Proof.
  unfold_handler. cbn.
  destruct (auth_signInWithPassword _ _ _) as [[error|] b1]; cbn;
    rewrite <- ?app_assoc; cbn;
    repeat split; rewrite List.filter_app; cbn; apply app_nil_r.
Qed.

End LoginFacts.

(** The example of the specification: a wrong password for a@b.com gives
    one error toast, no navigation, and no current user. *)
Example login_wrong_password :
  let w' := step LoginSubmit Mem.wrong_password in
  List.filter (fun e => negb (is_write e)) (log w')
    = [CallGetSession; CallOnAuthStateChange 0; PreventDefault;
       CallSignInWithPassword "a@b.com" "wrong";
       ToastShow "error" "Error" "Invalid login credentials" 3000]
  /\ location w' = "/login"
  /\ app_user (app w') = None.
Proof. vm_compute. repeat split. Qed.

(** ** Dashboard.jsx *)

Section DashboardFacts.

Context {B : Type} `{Supabase B}.

(** On mount the dashboard asks the client for the auth user and keeps the
    answer; this is its only call. *)
Lemma getUser_effects (w : World B) :
  let w' := exec Dashboard.getUser w in
  log w' = (log w ++ [CallGetUser])%list
  /\ dash_user (dashboard w') = fst (auth_getUser (backend w))
  /\ backend w' = snd (auth_getUser (backend w)).
Proof.
  unfold_handler. cbn.
  destruct (auth_getUser _) as [u b1]; cbn. repeat split.
Qed.

End DashboardFacts.

(** C1. For a signed-in user with no row in [profiles], mounting the
    dashboard makes one call, [auth.getUser]; it does not read [profiles],
    and it shows the auth user's email and id with no error. *)
Theorem dashboard_mount_without_profile :
  let w := initial Mem.alice_signed_in "/dashboard" in
  let w' := run [AppMount; GetSessionSettled; DashboardMount] w in
  Mem.profiles (backend w') = []
  /\ log w' = [CallGetSession; CallOnAuthStateChange 0;
               AppSetUser ByGetSession (Some Mem.alice); CallGetUser]
  /\ Dashboard.render (dashboard w')
     = Dashboard.mkView (Some "a") (Some "a@b.com") (Some "uid-a@b.com").
Proof. vm_compute. repeat split. Qed.

(** ** Routing *)

Section Routing.

Context {B : Type} `{Supabase B}.

Local Abbreviation Routes := (App.Routes (B:=B)).

(** C3, as amended. What the router does depends on the path and on the
    presence of a user only: [/dashboard] redirects to [/login] without a
    user and shows the dashboard with one; [/login] and [/register] redirect
    to [/dashboard] with a user and show their form without one; [/]
    redirects, to [/dashboard] with a user and to [/login] without. *)
Theorem routing_rule (user : option User) :
  let present := match user with Some _ => true | None => false end in
  outcome (Routes "/dashboard" user)
    = (if present then Shows DashboardPage else Redirect "/login")
  /\ outcome (Routes "/login" user)
    = (if present then Redirect "/dashboard" else Shows LoginPage)
  /\ outcome (Routes "/register" user)
    = (if present then Redirect "/dashboard" else Shows RegisterPage)
  /\ outcome (Routes "/" user)
    = Redirect (if present then "/dashboard" else "/login").
Proof. destruct user; cbn; repeat split. Qed.

End Routing.

(** C3 as written fails at the path [/]: that case is neither of the two
    redirects it names, and no view is rendered there. *)
Lemma root_path_renders_no_view :
  ~ (forall (pathname : string) (user : option User),
       (pathname = "/dashboard" -> user = None ->
        outcome (App.Routes (B:=Mem.Service) pathname user)
          = Redirect "/login")
       /\ ((pathname = "/login" \/ pathname = "/register") -> user <> None ->
           outcome (App.Routes (B:=Mem.Service) pathname user)
             = Redirect "/dashboard")
       /\ (~ (pathname = "/dashboard" /\ user = None) ->
           ~ ((pathname = "/login" \/ pathname = "/register") /\ user <> None) ->
           App.is_view (App.Routes (B:=Mem.Service) pathname user) = true)).
Proof.
  intros claim.
  destruct (claim "/" None) as (_ & _ & view).
  cbn in view.
  assert (false = true) as absurd.
  { apply view.
    - intros [e _]. discriminate e.
    - intros [[e | e] _]; discriminate e. }
  discriminate absurd.
Qed.

(** ** The session observer *)

Section ObserverFacts.

Context {B : Type} `{Supabase B}.

(** The second effect of [App] does nothing or navigates once. *)
Lemma rootEffect_cases (w : World B) :
  App.rootEffect w = (inr tt, w)
  \/ exists to,
       App.rootEffect w
       = (inr tt, set_location to (set_log (log w ++ [Navigate to None]) w)).
Proof.
  unfold App.rootEffect, navigate, emit, bind, get, modify, ret.
  destruct (String.eqb (location w) "/"); [|left; reflexivity].
  destruct (app_user (app w)); right; eexists; reflexivity.
Qed.

Lemma rerender_cases (before : option User) (w : World B) :
  rerender before w = (inr tt, w)
  \/ exists to,
       rerender before w
       = (inr tt, set_location to (set_log (log w ++ [Navigate to None]) w)).
Proof.
  unfold rerender, bind, get. cbn.
  destruct (decide (app_user (app w) = before)); [left; reflexivity|].
  apply rootEffect_cases.
Qed.

(** A notification reaches every callback the client holds, in order; each
    calls [setUser] with the user of the notification. *)
Lemma for_each_authCallback (event : string) (session : option Session)
    (subs : list nat) (w : World B) :
  for_each (fun sub => App.authCallback sub event session) subs w
  = (inr tt,
     set_app (match subs with
              | [] => app w
              | _ :: _ =>
                  if app_mounted (app w)
                  then App.with_user (session_user_or_null session) (app w)
                  else app w
              end)
       (set_log
          (log w ++ map (fun sub => AppSetUser (BySubscription sub)
                                      (session_user_or_null session)) subs)
          w)).
Proof.
  revert w. induction subs as [|sub subs IH]; intros w.
  - destruct w. cbn. rewrite app_nil_r. reflexivity.
  - cbn. unfold App.authCallback, App.setUser, bind, emit, modify at 1 2. cbn.
    rewrite IH. destruct w as [b ls n p l [u [] s pd] r lg d];
      destruct subs; cbn; rewrite <- ?app_assoc; reflexivity.
Qed.

Lemma step_notification (event : string) (session : option Session)
    (w : World B) :
  step (AuthStateChange event session) w
  = exec (rerender (app_user (app w))) (notified session w).
Proof.
  unfold step, exec, handler, notify, bind, get. cbn.
  rewrite for_each_authCallback. reflexivity.
Qed.

(** The log only grows, and an event adds no other call of [setUser] than
    those it may make. *)
Lemma step_log (e : Event) (w : World B) :
  exists new, log (step e w) = (log w ++ new)%list /\ Forall (may_emit w e) new.
Proof.
  destruct e;
    try (unfold_handler; unfold_observer; unfold_handler; cbn; split_calls;
         close_log; fail).
  - unfold may_emit. unfold_handler; unfold_observer; unfold_handler; cbn.
    destruct (app_pending (app w)) as [[]|]; cbn; split_calls; close_log; 
    try congruence.
  - rewrite step_notification.
    destruct (rerender_cases (app_user (app w)) (notified session w))
      as [E | [to E]]; unfold exec; rewrite E; cbn.
    + eexists; split; [reflexivity|].
      apply List.Forall_forall. intros x Hx. apply in_map_iff in Hx.
      destruct Hx as (sub & <- & Hsub). exact Hsub.
    + rewrite <- app_assoc. eexists; split; [reflexivity|].
      apply List.Forall_app. split; [|repeat constructor].
      apply List.Forall_forall. intros x Hx. apply in_map_iff in Hx.
      destruct Hx as (sub & <- & Hsub). exact Hsub.
Qed.

(** Outside initialization, only a notification changes the current user. *)
Lemma step_app_user (e : Event) (w : World B) :
  initialising w e = false -> is_notification e = false ->
  app_user (app (step e w)) = app_user (app w).
Proof.
  destruct e; cbn; intros Hinit Hnote; try discriminate Hnote;
    try (unfold_all; split_calls; reflexivity).
  - unfold_all. destruct (app_mounted (app w)); [|discriminate Hinit].
    split_calls; reflexivity.
  - unfold_all. destruct (app_pending (app w)); [discriminate Hinit|].
    cbn. split_calls; try reflexivity; congruence.
Qed.

(** A subscription that the client no longer holds, and whose number has
    been given out, stays out of the registry. *)
Lemma step_registry (sub : nat) (e : Event) (w : World B) :
  ~ In sub (listeners w) -> sub < next_sub w ->
  ~ In sub (listeners (step e w)) /\ sub < next_sub (step e w).
Proof.
  intros Hout Hlt.
  destruct e;
    try (unfold_all; split_calls; (split; [exact Hout | exact Hlt]); fail).
  - unfold_all. split_calls; cbn; try (split; [exact Hout | exact Hlt]);
      (split; [|lia]); rewrite in_app_iff; cbn; intros [?|[?|[]]];
      try contradiction; lia.
  - unfold_all. split_calls; cbn; try (split; [exact Hout | exact Hlt]);
      (split; [|exact Hlt]); rewrite filter_In; tauto.
  - unfold_all. destruct (app_pending (app w)) as [[]|]; cbn; split_calls;
      (split; [exact Hout | exact Hlt]).
  - rewrite step_notification.
    destruct (rerender_cases (app_user (app w)) (notified session w))
      as [E | [to E]]; unfold exec; rewrite E; cbn;
      (split; [exact Hout | exact Hlt]).
Qed.

Lemma step_holds_subscription (e : Event) (w : World B) :
  holds_subscription w -> holds_subscription (step e w).
Proof.
  unfold holds_subscription.
  destruct w as [b ls n p l [u m s pd] r lg d]. cbn. intros Hw.
  destruct e;
    try (unfold_all; split_calls; exact Hw).
  - unfold_all. destruct m; cbn.
    + exact Hw.
    + split_calls; intros _; eexists; (split; [reflexivity | cbn; lia]).
  - unfold_all. destruct m; cbn; [|exact Hw].
    destruct s; cbn; discriminate.
  - unfold_all. destruct pd as [[]|], m; cbn; split_calls; exact Hw.
  - rewrite step_notification.
    match goal with
    | |- context [exec (rerender ?u) ?x] =>
        destruct (rerender_cases u x) as [E | [to E]]
    end; unfold exec; rewrite E; cbn; destruct ls, m; cbn; exact Hw.
Qed.

Lemma run_app (l1 l2 : list Event) (w : World B) :
  run (l1 ++ l2) w = run l2 (run l1 w).
Proof. unfold run. apply fold_left_app. Qed.

Lemma run_holds_subscription (events : list Event) (w : World B) :
  holds_subscription w -> holds_subscription (run events w).
Proof.
  revert w. induction events as [|e events IH]; intros w Hw; [exact Hw|].
  cbn. apply IH. apply step_holds_subscription. exact Hw.
Qed.

Lemma filter_none {A} (f : A -> bool) (l : list A) :
  List.Forall (fun x => f x = false) l -> List.filter f l = [].
Proof.
  induction 1 as [|x l Hx _ IH]; cbn; [reflexivity|].
  rewrite Hx. exact IH.
Qed.

(** After a notification a subscribed [App] has the user of the
    notification, and is still subscribed. *)
Lemma notification_sets_user (event : string) (session : option Session)
    (w : World B) :
  subscribed w = true ->
  app_user (app (step (AuthStateChange event session) w))
    = session_user_or_null session
  /\ subscribed (step (AuthStateChange event session) w) = true.
Proof.
  rewrite step_notification. unfold subscribed, notified.
  destruct w as [b ls n p l [u m s pd] r lg d]. cbn.
  intros Hsub. apply andb_true_iff in Hsub. destruct Hsub as [-> Hsub].
  destruct s as [sub|]; [|discriminate Hsub].
  destruct ls as [|s0 ls]; [discriminate Hsub|].
  match goal with
  | |- context [exec (rerender ?u) ?x] =>
      destruct (rerender_cases u x) as [E | [to E]]
  end; unfold exec; rewrite E; cbn; (split; [reflexivity | exact Hsub]).
Qed.

Lemma notifications_keep_subscribed (ns : list (string * option Session))
    (w : World B) :
  subscribed w = true -> subscribed (run (notifications ns) w) = true.
Proof.
  revert w. induction ns as [|[event session] ns IH]; intros w Hw; [exact Hw|].
  cbn. apply IH. apply notification_sets_user. exact Hw.
Qed.

(** C2. Whatever notifications a subscribed observer has processed, after
    it processes one more the current user is exactly the user that one
    carries, and is absent when it carries no session or a session with no
    user: the last notification wins. *)
Theorem last_notification_wins (w : World B)
    (earlier : list (string * option Session))
    (event : string) (session : option Session) :
  subscribed w = true ->
  app_user (app (run (notifications earlier ++ [AuthStateChange event session]) w))
    = match session with
      | Some {| session_user := Some carried |} => Some carried
      | Some {| session_user := None |} => None
      | None => None
      end.
Proof.
  intros Hw. rewrite run_app. cbn.
  destruct (notification_sets_user event session
              (run (notifications earlier) w)
              (notifications_keep_subscribed earlier w Hw)) as [Huser _].
  rewrite Huser. destruct session as [[[carried|]]|]; reflexivity.
Qed.

(** C7. Mounting [App] and letting its [getSession] settle leaves the
    current user equal to the user of the fetched session, absent when
    there is no session or the session has no user; when the fetch fails,
    by an error or by a rejection, the current user is absent. *)
Theorem initial_session (w : World B) :
  app_mounted (app w) = false ->
  let fetched := fst (auth_getSession (backend w)) in
  let w' := run [AppMount; GetSessionSettled] w in
  app_user (app w')
  = match fetched with
    | GotSession {| session_user := Some fetched_user |} => Some fetched_user
    | GotSession {| session_user := None |} => None
    | NoSession | SessionError _ | SessionRejected _ => None
    end
  /\ (session_fetch_failed fetched = true -> app_user (app w') = None).
Proof.
  destruct w as [b ls n p l [u m s pd] r lg d]. cbn. intros ->.
  unfold_all.
  destruct (auth_getSession b) as [[[[fetched_user|]]| | |] b1]; cbn;
    repeat match goal with
    | |- context [if ?c then _ else _] => destruct c; cbn
    end; split; try reflexivity; try discriminate; auto.
Qed.

(** C8. Outside initialization (the mount of [App] and the settling of the
    [getSession] it waits for) every call of [setUser] an event adds is
    made by a callback of the subscription; an event that is not a
    notification, so every form handler, adds none and leaves the current
    user as it was. *)
Theorem subscription_is_sole_writer (w : World B) (e : Event) :
  initialising w e = false ->
  exists ws,
    writes (log (step e w)) = (writes (log w) ++ ws)%list
    /\ forallb by_subscription ws = true
    /\ (is_notification e = false ->
        ws = [] /\ app_user (app (step e w)) = app_user (app w)).
Proof.
  intros Hinit.
  destruct (step_log e w) as (new & Hlog & Hnew).
  exists (writes new). unfold writes. rewrite Hlog, List.filter_app.
  split; [reflexivity|].
  assert (List.Forall (fun x => is_write x = true ->
                         by_subscription x = true
                         /\ is_notification e = true) new) as Hby.
  { eapply List.Forall_impl; [|exact Hnew].
    intros x Hx Hwrite. destruct x; try discriminate Hwrite.
    cbn in Hx. destruct e, by_; cbn in *; try contradiction; auto.
    destruct (app_pending (app w)); [discriminate Hinit | congruence]. }
  split.
  - apply forallb_forall. intros x Hx. apply filter_In in Hx.
    destruct Hx as [Hx Hwrite].
    rewrite List.Forall_forall in Hby. apply (Hby x Hx Hwrite).
  - intros Hnote. split; [|apply step_app_user; assumption].
    apply filter_none. eapply List.Forall_impl; [|exact Hby].
    intros x Hx. cbn in Hx. destruct (is_write x); [|reflexivity].
    destruct (Hx eq_refl) as [_ Habs]. congruence.
Qed.

(** A subscription the client does not hold makes no call of [setUser]. *)
Lemma step_writes_of (sub : nat) (e : Event) (w : World B) :
  ~ In sub (listeners w) ->
  writes_of sub (log (step e w)) = writes_of sub (log w).
Proof.
  intros Hout.
  destruct (step_log e w) as (new & Hlog & Hnew).
  unfold writes_of. rewrite Hlog, List.filter_app.
  rewrite (filter_none (is_write_of sub) new); [apply app_nil_r|].
  eapply List.Forall_impl; [|exact Hnew].
  intros x Hx. destruct x as [| | | | | | | | | | | |by_ v]; try reflexivity.
  destruct by_ as [|s| |]; try reflexivity. cbn.
  destruct (Nat.eqb_spec s sub) as [->|]; [|reflexivity].
  cbn in Hx. destruct e; contradiction.
Qed.

Lemma run_unsubscribed (sub : nat) (events : list Event) (w : World B) :
  ~ In sub (listeners w) -> sub < next_sub w ->
  ~ In sub (listeners (run events w))
  /\ writes_of sub (log (run events w)) = writes_of sub (log w).
Proof.
  revert w. induction events as [|e events IH]; intros w Hout Hlt.
  - split; [exact Hout | reflexivity].
  - cbn. destruct (step_registry sub e w Hout Hlt) as [Hout' Hlt'].
    destruct (IH (step e w) Hout' Hlt') as [Hfinal Hwrites].
    split; [exact Hfinal|].
    fold (run events (step e w)). rewrite Hwrites.
    apply step_writes_of. exact Hout.
Qed.

(** The cleanup of the session effect, run by the teardown of [App]. *)
Lemma unmount_effects (sub : nat) (w : World B) :
  app_mounted (app w) = true -> app_subscription (app w) = Some sub ->
  log (step AppUnmount w) = (log w ++ [CallUnsubscribe sub])%list
  /\ listeners (step AppUnmount w)
     = List.filter (fun s => negb (Nat.eqb s sub)) (listeners w)
  /\ next_sub (step AppUnmount w) = next_sub w.
Proof.
  destruct w as [b ls n p l [u m s pd] r lg d]. cbn. intros -> ->.
  unfold_all. repeat split.
Qed.

(** C9. In every execution, tearing down a mounted [App] unsubscribes its
    callback, whatever the state; the client then no longer holds it, and
    whatever happens afterwards, notifications included, the log gains no
    call of [setUser] from that subscription. *)
Theorem unsubscribed_on_teardown (b : B) (pathname : string)
    (before after : list Event) :
  let w := run before (initial b pathname) in
  app_mounted (app w) = true ->
  exists sub,
    app_subscription (app w) = Some sub
    /\ log (step AppUnmount w) = (log w ++ [CallUnsubscribe sub])%list
    /\ ~ In sub (listeners (run after (step AppUnmount w)))
    /\ writes_of sub (log (run after (step AppUnmount w)))
       = writes_of sub (log w).
Proof.
  intros w Hmounted.
  assert (holds_subscription w) as Hholds.
  { apply run_holds_subscription. intros Habs. discriminate Habs. }
  destruct (Hholds Hmounted) as (sub & Hsub & Hlt).
  destruct (unmount_effects sub w Hmounted Hsub) as (Hlog & Hls & Hnext).
  exists sub. split; [exact Hsub|]. split; [exact Hlog|].
  assert (~ In sub (listeners (step AppUnmount w))) as Hout.
  { rewrite Hls, List.filter_In. intros [_ Hne].
    rewrite Nat.eqb_refl in Hne. discriminate Hne. }
  assert (sub < next_sub (step AppUnmount w)) as Hlt' by (rewrite Hnext; exact Hlt).
  destruct (run_unsubscribed sub after _ Hout Hlt') as [Hfinal Hwrites].
  split; [exact Hfinal|].
  rewrite Hwrites, Hlog. unfold writes_of.
  rewrite List.filter_app. cbn. apply app_nil_r.
Qed.

End ObserverFacts.

(** ** Worked instances *)

Lemma handleSubmit_success_witness :
  let w := Mem.form_filled in
  let fd := formData (register w) in
  auth_signUp (signUp_args_of fd) (backend w)
    = (mkSignUpResult (Some Mem.alice) None, Mem.with_account)
  /\ from_insert "profiles" [profile_row_of Mem.alice fd] Mem.with_account
     = (None, Mem.with_profile)
  /\ log (exec Register.handleSubmit w)
     = [PreventDefault;
        CallSignUp (mkSignUpArgs (Some "a@b.com") (Some "secret")
                                 (Some "Al") (Some "600"));
        CallInsert "profiles"
          [mkProfileRow "uid-a@b.com" (Some "Al") (Some "a@b.com") (Some "600")];
        Navigate "/login" (Some Register.successMessage)].
Proof.
  assert (auth_signUp (signUp_args_of (formData (register Mem.form_filled)))
            (backend Mem.form_filled)
          = (mkSignUpResult (Some Mem.alice) None, Mem.with_account)) as Hup
    by (vm_compute; reflexivity).
  assert (from_insert "profiles"
            [profile_row_of Mem.alice (formData (register Mem.form_filled))]
            Mem.with_account
          = (None, Mem.with_profile)) as Hins
    by (vm_compute; reflexivity).
  split; [exact Hup|]. split; [exact Hins|].
  exact (proj1 (handleSubmit_success Mem.form_filled Mem.alice
                  Mem.with_account Mem.with_profile Hup Hins)).
Defined.

Lemma handleSubmit_signUp_fails_witness :
  let w := Mem.form_filled_again in
  let fd := formData (register w) in
  let w' := exec Register.handleSubmit w in
  auth_signUp (signUp_args_of fd) (backend w)
    = (mkSignUpResult None (Some (mkError "User already registered")),
       Mem.alice_signed_out)
  /\ "User already registered" <> ""
  /\ log w' = [PreventDefault;
               CallSignUp (mkSignUpArgs (Some "a@b.com") (Some "secret")
                                        (Some "Al") (Some "600"))]
  /\ location w' = "/register"
  /\ Register.errorBanner (register w') = Some "User already registered".
Proof.
  assert (auth_signUp
            (signUp_args_of (formData (register Mem.form_filled_again)))
            (backend Mem.form_filled_again)
          = (mkSignUpResult None (Some (mkError "User already registered")),
             Mem.alice_signed_out)) as Hup
    by (vm_compute; reflexivity).
  assert ("User already registered" <> "") as Hne by discriminate.
  destruct (handleSubmit_signUp_fails Mem.form_filled_again None
              (mkError "User already registered") Mem.alice_signed_out Hup)
    as (Hlog & _ & _ & _ & Hloc & _ & _ & Hbanner).
  split; [exact Hup|]. split; [exact Hne|]. split; [exact Hlog|].
  split; [exact Hloc|]. exact (Hbanner Hne).
Defined.

Lemma last_notification_wins_witness :
  subscribed Mem.observing = true
  /\ app_user (app (run [AuthStateChange "SIGNED_OUT" None;
                         AuthStateChange "SIGNED_IN" Mem.alice_session]
                        Mem.observing))
     = Some (mkUser "uid-a@b.com" "a@b.com")
  /\ app_user (app (run [AuthStateChange "SIGNED_IN" Mem.alice_session;
                         AuthStateChange "TOKEN_REFRESHED" Mem.alice_session;
                         AuthStateChange "SIGNED_OUT" None] Mem.observing))
     = None.
Proof.
  assert (subscribed Mem.observing = true) as Hs by (vm_compute; reflexivity).
  split; [exact Hs|]. split.
  - exact (last_notification_wins Mem.observing [("SIGNED_OUT", None)]
             "SIGNED_IN" Mem.alice_session Hs).
  - exact (last_notification_wins Mem.observing
             [("SIGNED_IN", Mem.alice_session);
              ("TOKEN_REFRESHED", Mem.alice_session)]
             "SIGNED_OUT" None Hs).
Defined.

Lemma initial_session_witness :
  let signed_in := initial Mem.alice_signed_in "/dashboard" in
  let w := initial Mem.unreachable "/dashboard" in
  app_mounted (app signed_in) = false
  /\ app_user (app (run [AppMount; GetSessionSettled] signed_in))
     = Some (mkUser "uid-a@b.com" "a@b.com")
  /\ app_mounted (app w) = false
  /\ session_fetch_failed (fst (auth_getSession (backend w))) = true
  /\ app_user (app (run [AppMount; GetSessionSettled] w)) = None.
Proof.
  assert (app_mounted (app (initial Mem.alice_signed_in "/dashboard")) = false)
    as Hin by reflexivity.
  assert (app_mounted (app (initial Mem.unreachable "/dashboard")) = false)
    as Hm by reflexivity.
  assert (session_fetch_failed
            (fst (auth_getSession (backend (initial Mem.unreachable "/dashboard"))))
          = true) as Hf by reflexivity.
  split; [exact Hin|].
  split; [exact (proj1 (initial_session
                          (initial Mem.alice_signed_in "/dashboard") Hin))|].
  split; [exact Hm|]. split; [exact Hf|].
  exact (proj2 (initial_session (initial Mem.unreachable "/dashboard") Hm) Hf).
Defined.

Lemma subscription_is_sole_writer_witness :
  initialising Mem.wrong_password LoginSubmit = false
  /\ is_notification LoginSubmit = false
  /\ writes (log (step LoginSubmit Mem.wrong_password))
     = writes (log Mem.wrong_password)
  /\ app_user (app (step LoginSubmit Mem.wrong_password))
     = app_user (app Mem.wrong_password).
Proof.
  assert (initialising Mem.wrong_password LoginSubmit = false) as Hi
    by reflexivity.
  assert (is_notification LoginSubmit = false) as Hn by reflexivity.
  destruct (subscription_is_sole_writer Mem.wrong_password LoginSubmit Hi)
    as (ws & Hws & _ & Hrest).
  destruct (Hrest Hn) as [Hnil Huser].
  split; [exact Hi|]. split; [exact Hn|]. split; [|exact Huser].
  rewrite Hws, Hnil. apply app_nil_r.
Defined.

Lemma unsubscribed_on_teardown_witness :
  let w := run [AppMount; GetSessionSettled]
               (initial Mem.alice_signed_out "/login") in
  let w' := run [AuthStateChange "SIGNED_IN" Mem.alice_session]
                (step AppUnmount w) in
  app_mounted (app w) = true
  /\ exists sub,
       app_subscription (app w) = Some sub
       /\ ~ In sub (listeners w')
       /\ writes_of sub (log w') = writes_of sub (log w).
Proof.
  assert (app_mounted
            (app (run [AppMount; GetSessionSettled]
                      (initial Mem.alice_signed_out "/login"))) = true) as Hm
    by reflexivity.
  split; [exact Hm|].
  destruct (unsubscribed_on_teardown Mem.alice_signed_out "/login"
              [AppMount; GetSessionSettled]
              [AuthStateChange "SIGNED_IN" Mem.alice_session] Hm)
    as (sub & Hsub & _ & Hout & Hwrites).
  exists sub. split; [exact Hsub|]. split; [exact Hout | exact Hwrites].
Defined.

(** * Further properties *)

(** ** Register.jsx: the rest of [handleSubmit] and [handleChange] *)

Section RegisterMore.

Context {B : Type} `{Supabase B}.

(** X1. When sign-up returns a new user but the insert returns an error,
    the handler shows that error and stops: its calls are sign-up and the
    one insert, nothing undoes the sign-up, and it does not navigate. *)
Theorem handleSubmit_insert_fails (w : World B) (u : User) (e : JsError)
    (b1 b2 : B) :
  let fd := formData (register w) in
  auth_signUp (signUp_args_of fd) (backend w)
    = (mkSignUpResult (Some u) None, b1) ->
  from_insert "profiles" [profile_row_of u fd] b1 = (Some e, b2) ->
  let w' := exec Register.handleSubmit w in
  log w' = (log w ++ [PreventDefault;
                      CallSignUp (signUp_args_of fd);
                      CallInsert "profiles" [profile_row_of u fd]])%list
  /\ backend w' = b2
  /\ location w' = location w
  /\ reg_error (register w') = Some (message e)
  /\ reg_loading (register w') = false.
Proof.
  intros fd Hup Hins. unfold signUp_args_of, profile_row_of in *.
  subst fd. unfold_handler. cbn.
  rewrite Hup. cbn. rewrite Hins. cbn.
  rewrite <- !app_assoc. cbn. repeat split.
Qed.

(** X2. When sign-up resolves with no error and no user, reading the id of
    the missing user throws inside the [try]: the handler attempts no
    insert, does not navigate, and shows the thrown message. *)
Theorem handleSubmit_no_user (w : World B) (b1 : B) :
  let fd := formData (register w) in
  auth_signUp (signUp_args_of fd) (backend w)
    = (mkSignUpResult None None, b1) ->
  let w' := exec Register.handleSubmit w in
  log w' = (log w ++ [PreventDefault; CallSignUp (signUp_args_of fd)])%list
  /\ backend w' = b1
  /\ location w' = location w
  /\ reg_error (register w') = Some (message TypeError_id_of_null)
  /\ reg_loading (register w') = false.
Proof.
  intros fd Hup. unfold signUp_args_of in *.
  subst fd. unfold_handler. cbn.
  rewrite Hup. cbn.
  rewrite <- !app_assoc. cbn. repeat split.
Qed.

(** X3. Whatever the service answers, [handleSubmit] finishes without a
    thrown value, with the loading flag off, and with the form, the state
    of [App] and the other components as they were. *)
Theorem handleSubmit_always_settles (w : World B) :
  fst (Register.handleSubmit w) = inr tt
  /\ reg_loading (register (exec Register.handleSubmit w)) = false
  /\ formData (register (exec Register.handleSubmit w)) = formData (register w)
  /\ app (exec Register.handleSubmit w) = app w
  /\ login (exec Register.handleSubmit w) = login w
  /\ dashboard (exec Register.handleSubmit w) = dashboard w
  /\ listeners (exec Register.handleSubmit w) = listeners w.
Proof.
  unfold_handler. cbn.
  destruct (auth_signUp _ _) as [[[u|] [e|]] b1]; cbn;
    try (repeat split; fail);
    destruct (from_insert _ _ _) as [[e'|] b2]; cbn; repeat split.
Qed.

(** X4. A submission ends in one of two ways and never in a mix: either no
    error is shown, one row was inserted and the page went to [/login] with
    the success message, or an error is shown and the page stayed where it
    was without navigating. *)
Theorem handleSubmit_dichotomy (w : World B) :
  let fd := formData (register w) in
  let w' := exec Register.handleSubmit w in
  match reg_error (register w') with
  | None =>
      location w' = "/login"
      /\ List.filter is_navigate (log w')
         = (List.filter is_navigate (log w)
            ++ [Navigate "/login" (Some Register.successMessage)])%list
      /\ exists u,
           List.filter is_insert (log w')
           = (List.filter is_insert (log w)
              ++ [CallInsert "profiles" [profile_row_of u fd]])%list
  | Some _ =>
      location w' = location w
      /\ List.filter is_navigate (log w') = List.filter is_navigate (log w)
  end.
Proof.
  unfold profile_row_of. unfold_handler. cbn.
  destruct (auth_signUp _ _) as [[[u|] [e|]] b1]; cbn;
    try (rewrite <- !app_assoc, List.filter_app; cbn;
         split; [reflexivity | apply app_nil_r]);
    destruct (from_insert _ _ _) as [[e'|] b2]; cbn;
    rewrite <- !app_assoc, ?List.filter_app; cbn.
  - split; [reflexivity | apply app_nil_r].
  - split; [reflexivity|]. split; [reflexivity|].
    exists u. reflexivity.
Qed.

End RegisterMore.

Section FormMore.

Context {B : Type} `{Supabase B}.

(** Only a change event of the registration form alters the form. *)
Lemma step_formData (e : Event) (w : World B) :
  (forall name value, e <> RegisterChange name value) ->
  formData (register (step e w)) = formData (register w).
Proof.
  intros Hne.
  destruct e; try (unfold_all; split_calls; reflexivity).
  - unfold_all. destruct (app_pending (app w)) as [[]|]; cbn; split_calls;
      reflexivity.
  - rewrite step_notification.
    match goal with
    | |- context [exec (rerender ?u) ?x] =>
        destruct (rerender_cases u x) as [E | [to E]]
    end; unfold exec; rewrite E; reflexivity.
  - exfalso. exact (Hne name value eq_refl).
Qed.

Lemma step_form_complete (e : Event) (w : World B) :
  form_complete (formData (register w)) ->
  form_complete (formData (register (step e w))).
Proof.
  intros Hw.
  destruct e;
    try (rewrite step_formData; [exact Hw | intros ? ?; discriminate]).
  unfold_handler. cbn. unfold Register.updateField, form_complete in *.
  eapply List.Forall_impl; [|exact Hw].
  intros k Hk. cbn in Hk. rewrite lookup_insert.
  destruct (decide (name = k)); [discriminate | exact Hk].
Qed.

Lemma run_form_complete (events : list Event) (w : World B) :
  form_complete (formData (register w)) ->
  form_complete (formData (register (run events w))).
Proof.
  revert w. induction events as [|e events IH]; intros w Hw; [exact Hw|].
  cbn. apply (IH (step e w)). apply step_form_complete. exact Hw.
Qed.

(** X5. In every execution from the initial page the four inputs of the
    form hold strings, so a submission never passes an undefined email,
    password, display name or phone to sign-up. *)
Theorem form_stays_complete (b : B) (pathname : string) (events : list Event) :
  let fd := formData (register (run events (initial b pathname))) in
  exists email password displayName phone,
    signUp_args_of fd
    = mkSignUpArgs (Some email) (Some password) (Some displayName) (Some phone).
Proof.
  intros fd.
  assert (form_complete fd) as Hfd.
  { apply run_form_complete. unfold form_complete, form_fields. cbn.
    repeat constructor; vm_compute; discriminate. }
  unfold form_complete, form_fields in Hfd.
  inversion Hfd as [|? ? Hd Hfd1]; subst.
  inversion Hfd1 as [|? ? He Hfd2]; subst.
  inversion Hfd2 as [|? ? Hp Hfd3]; subst.
  inversion Hfd3 as [|? ? Hph _]; subst.
  unfold signUp_args_of.
  destruct (fd !! "email") as [x1|]; [|contradiction].
  destruct (fd !! "password") as [x2|]; [|contradiction].
  destruct (fd !! "displayName") as [x3|]; [|contradiction].
  destruct (fd !! "phone") as [x4|]; [|contradiction].
  exists x1, x2, x3, x4. reflexivity.
Qed.

(** X6. Changes compose as typing does: a second change of the same input
    replaces the first, and changes of two different inputs give the same
    form in either order. *)
Theorem handleChange_compose (w : World B) (n1 n2 v1 v2 : string) :
  exec (Register.handleChange n1 v2) (exec (Register.handleChange n1 v1) w)
    = exec (Register.handleChange n1 v2) w
  /\ (n1 <> n2 ->
      exec (Register.handleChange n2 v2) (exec (Register.handleChange n1 v1) w)
      = exec (Register.handleChange n1 v1) (exec (Register.handleChange n2 v2) w)).
Proof.
  unfold_handler. cbn. unfold Register.updateField, set_register. cbn.
  split.
  - rewrite insert_insert_eq. reflexivity.
  - intros Hne. rewrite (insert_insert_ne _ n1 n2) by exact Hne. reflexivity.
Qed.

(** X7. A change event whose name is none of the four inputs adds a key of
    its own and leaves what a submission sends, the sign-up arguments and
    the profile row, as they were. *)
Theorem handleChange_stray_name (w : World B) (name value : string) (u : User) :
  ~ In name form_fields ->
  let fd := formData (register w) in
  let fd' := formData (register (exec (Register.handleChange name value) w)) in
  fd' !! name = Some value
  /\ signUp_args_of fd' = signUp_args_of fd
  /\ profile_row_of u fd' = profile_row_of u fd.
Proof.
  intros Hout. unfold form_fields in Hout. cbn in Hout.
  unfold_handler. cbn.
  unfold Register.updateField, signUp_args_of, profile_row_of.
  rewrite lookup_insert_eq.
  rewrite !lookup_insert_ne by (intros ->; tauto).
  repeat split.
Qed.

End FormMore.

(** ** Login.jsx and Dashboard.jsx: the rest of the handlers *)

Section HandlersMore.

Context {B : Type} `{Supabase B}.

(** X8. Whatever sign-in answers, the login handler finishes without a
    thrown value, with the loading flag off, and with the typed email and
    password, the registration form and the dashboard as they were. *)
Theorem login_handleSubmit_always_settles (w : World B) :
  fst (Login.handleSubmit w) = inr tt
  /\ login_loading (login (exec Login.handleSubmit w)) = false
  /\ login_email (login (exec Login.handleSubmit w)) = login_email (login w)
  /\ login_password (login (exec Login.handleSubmit w))
     = login_password (login w)
  /\ register (exec Login.handleSubmit w) = register w
  /\ dashboard (exec Login.handleSubmit w) = dashboard w
  /\ listeners (exec Login.handleSubmit w) = listeners w.
Proof.
  unfold_handler. cbn.
  destruct (auth_signInWithPassword _ _ _) as [[error|] b1]; cbn;
    repeat split.
Qed.

(** X9. The credentials sent are the ones typed last, in whichever order
    the two inputs were filled: after typing an email and a password the
    submission's sign-in call carries exactly those two. *)
Theorem login_sends_typed_credentials (w : World B) (e p : string) :
  (exists rest,
     log (run [LoginSetEmail e; LoginSetPassword p; LoginSubmit] w)
     = (log w ++ PreventDefault :: CallSignInWithPassword e p :: rest)%list)
  /\ (exists rest,
        log (run [LoginSetPassword p; LoginSetEmail e; LoginSubmit] w)
        = (log w ++ PreventDefault :: CallSignInWithPassword e p :: rest)%list).
Proof.
  unfold run. cbn [fold_left]. unfold_handler. cbn.
  split;
    destruct (auth_signInWithPassword _ _ _) as [[error|] b1]; cbn;
    rewrite <- !app_assoc; cbn; eexists; reflexivity.
Qed.

(** X10. Sign-out from the dashboard makes the one call and reports only a
    rejected promise, on the console; an error object that a fulfilled
    call returns is not looked at. In every case the handler finishes
    without a thrown value, does not navigate, and leaves the current user
    of [App] and the user the dashboard shows as they were. *)
Theorem handleLogout_effects (w : World B) :
  let answer := auth_signOut (backend w) in
  let w' := exec Dashboard.handleLogout w in
  fst (Dashboard.handleLogout w) = inr tt
  /\ log w' = (log w ++ CallSignOut ::
                 match fst answer with
                 | SignOutRejected error =>
                     [ConsoleError "Error al cerrar sesión:" (message error)]
                 | SignedOut _ => []
                 end)%list
  /\ backend w' = snd answer
  /\ location w' = location w
  /\ app w' = app w
  /\ dashboard w' = dashboard w.
Proof.
  unfold_handler. cbn.
  destruct (auth_signOut _) as [[error|error] b1]; cbn;
    rewrite <- ?app_assoc; cbn; repeat split.
Qed.

End HandlersMore.

(** X11. The name in the dashboard's greeting, the email up to its first
    [@], never contains an [@], is the start of the email, and is the whole
    email when that has no [@]. *)
Theorem before_at_is_local_part (s : string) :
  has_at (Dashboard.before_at s) = false
  /\ String.prefix (Dashboard.before_at s) s = true
  /\ (has_at s = false -> Dashboard.before_at s = s).
Proof.
  induction s as [|c s (IH1 & IH2 & IH3)]; cbn; [repeat split|].
  destruct (Ascii.eqb c "@") eqn:Hc; cbn; [repeat split; discriminate|].
  rewrite Hc. cbn. rewrite IH1.
  destruct (Ascii.ascii_dec c c) as [_|ne]; [|contradiction].
  repeat split; [exact IH2|].
  intros Hs. rewrite (IH3 Hs). reflexivity.
Qed.

(** ** App.jsx: the route table and the two effects *)

Section AppMore.

Context {B : Type} `{Supabase B}.

Local Abbreviation Routes := (App.Routes (B:=B)).

(** X12. A redirect always lands on a view: whatever the user, every
    redirect in the route table points at a path of the table whose element,
    for the same user, shows a view, so no redirect leads to another; and
    the table does hold a redirect, with a user and without one. *)
Theorem redirect_lands_on_view (user : option User) :
  List.Forall
    (fun route : string * App.Element (B:=B) =>
       match snd route with
       | App.NavigateTo to _ =>
           In to (map fst (App.routes (B:=B) user))
           /\ App.is_view (Routes to user) = true
       | _ => True
       end)
    (App.routes user)
  /\ List.existsb (fun route : string * App.Element (B:=B) =>
                    negb (App.is_view (snd route)))
                  (App.routes (B:=B) user) = true.
Proof.
  destruct user; cbn; (split; [|reflexivity]);
    repeat constructor; cbn; tauto.
Qed.

(** X13. Whichever route is matched, the dashboard is only ever rendered
    with a user, and with that user as its prop, and the login and
    registration forms are only ever rendered without one: this holds of
    every element of the route table, and the table does hold the
    dashboard when there is a user and both forms when there is none. *)
Theorem views_are_guarded (user : option User) :
  List.Forall
    (fun route : string * App.Element (B:=B) =>
       match snd route with
       | App.DashboardView shown _ => user <> None /\ shown = user
       | App.LoginView _ | App.RegisterView => user = None
       | _ => True
       end)
    (App.routes (B:=B) user)
  /\ map (fun route : string * App.Element (B:=B) => outcome (snd route))
         (App.routes user)
     = match user with
       | Some _ => [Redirect "/dashboard"; Redirect "/dashboard";
                    Shows DashboardPage; Redirect "/dashboard"]
       | None => [Shows LoginPage; Shows RegisterPage;
                  Redirect "/login"; Redirect "/login"]
       end.
Proof.
  destruct user; cbn; (split; [|reflexivity]);
    repeat constructor; cbn; auto; discriminate.
Qed.

(** X14. The second effect never leaves the page at the root, and when it
    navigates it goes where the route of [/] redirects, so the effect and
    the route table agree. *)
Theorem rootEffect_agrees_with_route (w : World B) :
  let w' := exec App.rootEffect w in
  location w' <> "/"
  /\ (location w = "/" ->
      outcome (Routes "/" (app_user (app w))) = Redirect (location w')
      /\ log w' = (log w ++ [Navigate (location w') None])%list).
Proof.
  unfold App.rootEffect, exec, navigate, emit, bind, get, modify, ret. cbn.
  destruct (String.eqb_spec (location w) "/") as [Heq|Hne].
  - destruct (app_user (app w)); cbn; (split; [discriminate|]);
      intros _; split; reflexivity.
  - cbn. split; [exact Hne|]. intros Habs. contradiction.
Qed.

(** Only the mount and the teardown of [App] touch the registry and the
    subscription [App] holds. *)
Lemma step_registry_frame (e : Event) (w : World B) :
  e <> AppMount -> e <> AppUnmount ->
  listeners (step e w) = listeners w
  /\ app_subscription (app (step e w)) = app_subscription (app w)
  /\ app_mounted (app (step e w)) = app_mounted (app w).
Proof.
  intros Hmount Hunmount.
  destruct w as [b ls n p l [u m s pd] r lg d].
  destruct e; try congruence;
    try (unfold_all; split_calls; repeat split; fail).
  - unfold_all. destruct pd as [[]|], m; cbn;
      repeat match goal with
             | |- context [if ?x then _ else _] => destruct x; cbn
             | |- context [match ?x with Some _ => _ | None => _ end] =>
                 destruct x; cbn
             end; repeat split.
  - rewrite step_notification.
    match goal with
    | |- context [exec (rerender ?u) ?x] =>
        destruct (rerender_cases u x) as [E | [to E]]
    end; unfold exec; rewrite E; cbn; destruct ls, m; cbn; repeat split.
Qed.

(** Every event keeps the registry in shape. *)
Lemma step_registry_shape (e : Event) (w : World B) :
  registry_shape w -> registry_shape (step e w).
Proof.
  unfold registry_shape. intros [Hls Hm].
  destruct e;
    try (match goal with
         | |- context [step ?e w] =>
             destruct (step_registry_frame e w) as (-> & -> & ->);
             [discriminate | discriminate | split; assumption]
         end).
  - destruct w as [b ls n p l [u m s pd] r lg d]. cbn in *. unfold_all.
    destruct m; cbn; [split; [exact Hls | exact Hm]|].
    destruct s; [discriminate Hm|]. subst ls.
    destruct (auth_getSession b) as [g b0]; cbn.
    destruct (String.eqb p "/"); cbn; split; reflexivity.
  - destruct w as [b ls n p l [u m s pd] r lg d]. cbn in *. unfold_all.
    destruct m; cbn; [|split; [exact Hls | exact Hm]].
    destruct s as [sub|]; [|discriminate Hm]. subst ls. cbn.
    rewrite Nat.eqb_refl. cbn. split; reflexivity.
Qed.

Lemma run_registry_shape (events : list Event) (w : World B) :
  registry_shape w -> registry_shape (run events w).
Proof.
  revert w. induction events as [|e events IH]; intros w Hw; [exact Hw|].
  cbn. apply IH. apply step_registry_shape. exact Hw.
Qed.

(** X15. In every execution from the initial page the client holds exactly
    the callback of the mounted [App], once, and holds none when [App] is
    not mounted: mounting never registers twice and teardown leaves
    nothing behind. *)
Theorem one_callback_while_mounted (b : B) (pathname : string)
    (events : list Event) :
  let w := run events (initial b pathname) in
  if app_mounted (app w)
  then exists sub, app_subscription (app w) = Some sub /\ listeners w = [sub]
  else app_subscription (app w) = None /\ listeners w = [].
Proof.
  intros w.
  assert (registry_shape w) as [Hls Hm].
  { apply run_registry_shape. split; reflexivity. }
  rewrite Hm, Hls. destruct (app_subscription (app w)) as [sub|].
  - exists sub. split; reflexivity.
  - split; reflexivity.
Qed.

(** X16. In every execution, a notification that arrives while [App] is
    not mounted changes nothing at all: no state, no log entry, no
    navigation. *)
Theorem notification_when_unmounted (b : B) (pathname : string)
    (events : list Event) (event : string) (session : option Session) :
  let w := run events (initial b pathname) in
  app_mounted (app w) = false ->
  step (AuthStateChange event session) w = w.
Proof.
  intros w Hm.
  assert (registry_shape w) as [Hls Hm'].
  { apply run_registry_shape. split; reflexivity. }
  rewrite Hm in Hm'. destruct (app_subscription (app w)); [discriminate Hm'|].
  rewrite step_notification. unfold notified. rewrite Hls. cbn.
  unfold exec, rerender, bind, get. cbn.
  destruct (decide (app_user (app w) = app_user (app w))) as [_|ne];
    [|contradiction].
  cbn. rewrite app_nil_r. destruct w. reflexivity.
Qed.

(** X17. A notification decides the routing of a subscribed [App]: after
    one that carries a user, [/login] and [/register] redirect to
    [/dashboard] and [/dashboard] shows the dashboard; after one that
    carries none, as on sign-out, [/dashboard] redirects to [/login] and
    the forms are shown. *)
Theorem notification_drives_routing (w : World B) (event : string)
    (session : option Session) :
  subscribed w = true ->
  let user := app_user (app (step (AuthStateChange event session) w)) in
  match session with
  | Some {| session_user := Some carried |} =>
      Routes "/dashboard" user
        = App.DashboardView (Some carried) App.handleLogout
      /\ outcome (Routes "/login" user) = Redirect "/dashboard"
      /\ outcome (Routes "/register" user) = Redirect "/dashboard"
      /\ outcome (Routes "/" user) = Redirect "/dashboard"
  | Some {| session_user := None |} | None =>
      outcome (Routes "/dashboard" user) = Redirect "/login"
      /\ outcome (Routes "/login" user) = Shows LoginPage
      /\ outcome (Routes "/register" user) = Shows RegisterPage
      /\ outcome (Routes "/" user) = Redirect "/login"
  end.
Proof.
  intros Hw user.
  destruct (notification_sets_user event session w Hw) as [Huser _].
  subst user. rewrite Huser.
  destruct session as [[[carried|]]|]; cbn; repeat split.
Qed.

End AppMore.

Section RaceMore.

Context {B : Type} `{Supabase B}.

(** What the mount of [App] leaves in its state and in the registry. *)
Lemma mount_effects (w : World B) :
  app_mounted (app w) = false ->
  app (step AppMount w)
    = mkApp None true (Some (next_sub w))
            (Some (fst (auth_getSession (backend w))))
  /\ listeners (step AppMount w) = (listeners w ++ [next_sub w])%list.
Proof.
  destruct w as [b ls n p l [u m s pd] r lg d]. cbn. intros ->.
  unfold_all. destruct (auth_getSession b) as [g b0]; cbn.
  destruct (String.eqb p "/"); cbn; split; reflexivity.
Qed.

(** The state of [App] after a notification. *)
Lemma notification_app (event : string) (session : option Session)
    (w : World B) :
  app (step (AuthStateChange event session) w) = app (notified session w).
Proof.
  rewrite step_notification.
  match goal with
  | |- context [exec (rerender ?u) ?x] =>
      destruct (rerender_cases u x) as [E | [to E]]
  end; unfold exec; rewrite E; reflexivity.
Qed.

(** The current user after the [getSession] promise has settled. *)
Lemma settled_user (w : World B) :
  app_mounted (app w) = true ->
  app_user (app (step GetSessionSettled w))
  = match app_pending (app w) with
    | None | Some (SessionRejected _) => app_user (app w)
    | Some r => session_user_or_null (data_session r)
    end.
Proof.
  destruct w as [b ls n p l [u m s pd] r lg d]. cbn. intros ->.
  unfold_all.
  destruct pd as [[]|]; cbn;
    repeat match goal with
           | |- context [if ?x then _ else _] => destruct x; cbn
           | |- context [match ?x with Some _ => _ | None => _ end] =>
               destruct x; cbn
           end; reflexivity.
Qed.

(** X18. The [.then] of [getSession] writes whenever it runs: when a
    notification arrives between the mount and the settling of the fetch,
    the fetched session's user replaces the user of the notification; only
    a rejected fetch leaves the notification's user in place. *)
Theorem late_fetch_overrides_notification (w : World B) (event : string)
    (session : option Session) :
  app_mounted (app w) = false ->
  let fetched := fst (auth_getSession (backend w)) in
  let w' := run [AppMount; AuthStateChange event session; GetSessionSettled] w in
  app_user (app w')
  = match fetched with
    | SessionRejected _ =>
        match session with
        | Some {| session_user := Some carried |} => Some carried
        | Some {| session_user := None |} | None => None
        end
    | GotSession {| session_user := Some fetched_user |} => Some fetched_user
    | GotSession {| session_user := None |} | NoSession | SessionError _ => None
    end.
Proof.
  intros Hm fetched w'. subst w'. unfold run. cbn [fold_left].
  destruct (mount_effects w Hm) as [Happ Hls].
  assert (app (step (AuthStateChange event session) (step AppMount w))
          = mkApp (session_user_or_null session) true (Some (next_sub w))
                  (Some fetched)) as Hnote.
  { rewrite notification_app. unfold notified. cbn. rewrite Hls, Happ.
    destruct (listeners w); reflexivity. }
  rewrite settled_user; rewrite Hnote; cbn; [|reflexivity].
  destruct fetched as [[[fetched_user|]]| | |];
    try reflexivity.
  destruct session as [[[carried|]]|]; reflexivity.
Qed.

End RaceMore.

Section DeadCallbacks.

Context {B : Type} `{Supabase B}.

Lemma step_no_prop_callback (e : Event) (w : World B) :
  List.filter by_prop_callback (log (step e w))
  = List.filter by_prop_callback (log w).
Proof.
  destruct (step_log e w) as (new & Hlog & Hnew).
  rewrite Hlog, List.filter_app.
  rewrite (filter_none by_prop_callback new); [apply app_nil_r|].
  eapply List.Forall_impl; [|exact Hnew].
  intros x Hx. destruct x as [| | | | | | | | | | | |by_ v]; try reflexivity.
  destruct by_; try reflexivity; cbn in Hx; destruct e; contradiction.
Qed.

(** X19. [App] passes [handleLogin] and [handleLogout] down as [onLogin]
    and [onLogout], but nothing ever calls them: in every execution from
    the initial page the log holds no call of [setUser] made through
    either. *)
Theorem prop_callbacks_never_called (b : B) (pathname : string)
    (events : list Event) :
  List.filter by_prop_callback (log (run events (initial b pathname))) = [].
Proof.
  assert (forall w : World B,
            List.filter by_prop_callback (log (run events w))
            = List.filter by_prop_callback (log w)) as Hrun.
  { induction events as [|e events IH]; intros w; [reflexivity|].
    cbn. fold (run events (step e w)). rewrite IH.
    apply step_no_prop_callback. }
  rewrite Hrun. reflexivity.
Qed.

End DeadCallbacks.

(** ** Worked instances of the further properties *)

Lemma handleSubmit_insert_fails_witness :
  let w := Scenes.form_over_orphan_row in
  let fd := formData (register w) in
  let b1 := snd (auth_signUp (signUp_args_of fd) (backend w)) in
  let w' := exec Register.handleSubmit w in
  auth_signUp (signUp_args_of fd) (backend w)
    = (mkSignUpResult (Some Mem.alice) None, b1)
  /\ from_insert "profiles" [profile_row_of Mem.alice fd] b1
     = (Some (mkError "duplicate key value violates unique constraint"), b1)
  /\ location w' = "/register"
  /\ reg_error (register w')
     = Some "duplicate key value violates unique constraint"
  /\ Mem.accounts (backend w') = [("a@b.com", "secret", Mem.alice)].
Proof.
  set (w := Scenes.form_over_orphan_row).
  set (fd := formData (register w)).
  set (b1 := snd (auth_signUp (signUp_args_of fd) (backend w))).
  assert (auth_signUp (signUp_args_of fd) (backend w)
          = (mkSignUpResult (Some Mem.alice) None, b1)) as Hup
    by (vm_compute; reflexivity).
  assert (from_insert "profiles" [profile_row_of Mem.alice fd] b1
          = (Some (mkError "duplicate key value violates unique constraint"),
             b1)) as Hins
    by (vm_compute; reflexivity).
  destruct (handleSubmit_insert_fails w Mem.alice _ b1 b1 Hup Hins)
    as (_ & Hb & Hloc & Herr & _).
  cbn zeta. split; [exact Hup|]. split; [exact Hins|].
  split; [exact Hloc|]. split; [exact Herr|].
  fold w. rewrite Hb. reflexivity.
Defined.

Lemma handleSubmit_no_user_witness :
  let w := Scenes.form_no_user in
  let w' := exec Register.handleSubmit w in
  auth_signUp (signUp_args_of (formData (register w))) (backend w)
    = (mkSignUpResult None None, Canned.no_user_no_error)
  /\ List.filter is_insert (log w') = []
  /\ location w' = "/register"
  /\ reg_error (register w') = Some (message TypeError_id_of_null).
Proof.
  set (w := Scenes.form_no_user).
  assert (auth_signUp (signUp_args_of (formData (register w))) (backend w)
          = (mkSignUpResult None None, Canned.no_user_no_error)) as Hup
    by (vm_compute; reflexivity).
  destruct (handleSubmit_no_user w Canned.no_user_no_error Hup)
    as (Hlog & _ & Hloc & Herr & _).
  cbn zeta. split; [exact Hup|]. fold w.
  split; [rewrite Hlog; reflexivity|].
  split; [exact Hloc | exact Herr].
Defined.

Lemma handleChange_compose_witness :
  let w := initial Mem.empty "/register" in
  "email" <> "phone"
  /\ exec (Register.handleChange "phone" "600")
          (exec (Register.handleChange "email" "a@b.com") w)
     = exec (Register.handleChange "email" "a@b.com")
            (exec (Register.handleChange "phone" "600") w).
Proof.
  assert ("email" <> "phone") as Hne by discriminate.
  split; [exact Hne|].
  exact (proj2 (handleChange_compose (initial Mem.empty "/register")
                  "email" "phone" "a@b.com" "600") Hne).
Defined.

Lemma handleChange_stray_name_witness :
  let w := Mem.form_filled in
  ~ In "nickname" form_fields
  /\ signUp_args_of
       (formData (register (exec (Register.handleChange "nickname" "Ally") w)))
     = signUp_args_of (formData (register w)).
Proof.
  assert (~ In "nickname" form_fields) as Hout.
  { cbn. intros [e|[e|[e|[e|[]]]]]; discriminate e. }
  split; [exact Hout|].
  exact (proj1 (proj2 (handleChange_stray_name Mem.form_filled
                         "nickname" "Ally" Mem.alice Hout))).
Defined.

Lemma before_at_is_local_part_witness :
  has_at "alice" = false /\ Dashboard.before_at "alice" = "alice".
Proof.
  assert (has_at "alice" = false) as Hs by reflexivity.
  split; [exact Hs|].
  exact (proj2 (proj2 (before_at_is_local_part "alice")) Hs).
Defined.

Lemma rootEffect_agrees_with_route_witness :
  let w := Scenes.at_root in
  location w = "/"
  /\ outcome (App.Routes (B:=Mem.Service) "/" (app_user (app w)))
     = Redirect (location (exec App.rootEffect w)).
Proof.
  assert (location Scenes.at_root = "/") as Hroot by reflexivity.
  split; [exact Hroot|].
  exact (proj1 (proj2 (rootEffect_agrees_with_route Scenes.at_root) Hroot)).
Defined.

Lemma notification_when_unmounted_witness :
  let w := run [AppMount; GetSessionSettled; AppUnmount]
               (initial Mem.alice_signed_in "/dashboard") in
  app_mounted (app w) = false
  /\ step (AuthStateChange "SIGNED_OUT" None) w = w.
Proof.
  assert (app_mounted
            (app (run [AppMount; GetSessionSettled; AppUnmount]
                      (initial Mem.alice_signed_in "/dashboard"))) = false)
    as Hm by reflexivity.
  split; [exact Hm|].
  exact (notification_when_unmounted Mem.alice_signed_in "/dashboard"
           [AppMount; GetSessionSettled; AppUnmount] "SIGNED_OUT" None Hm).
Defined.

Lemma notification_drives_routing_witness :
  let signed_in := step (AuthStateChange "SIGNED_IN" Mem.alice_session)
                        Mem.observing in
  let signed_out := step (AuthStateChange "SIGNED_OUT" None) Mem.observing in
  subscribed Mem.observing = true
  /\ App.Routes (B:=Mem.Service) "/dashboard" (app_user (app signed_in))
     = App.DashboardView (Some (mkUser "uid-a@b.com" "a@b.com"))
                         App.handleLogout
  /\ outcome (App.Routes (B:=Mem.Service) "/login" (app_user (app signed_in)))
     = Redirect "/dashboard"
  /\ outcome (App.Routes (B:=Mem.Service) "/dashboard"
                (app_user (app signed_out)))
     = Redirect "/login".
Proof.
  assert (subscribed Mem.observing = true) as Hs by reflexivity.
  destruct (notification_drives_routing Mem.observing "SIGNED_IN"
              Mem.alice_session Hs) as (Hdash & Hlogin & _).
  split; [exact Hs|]. split; [exact Hdash|]. split; [exact Hlogin|].
  exact (proj1 (notification_drives_routing Mem.observing "SIGNED_OUT" None Hs)).
Defined.

Lemma late_fetch_overrides_notification_witness :
  let signed_in := initial Mem.alice_signed_in "/dashboard" in
  let signed_out := initial Mem.alice_signed_out "/login" in
  let rejected := initial Canned.fetch_rejected "/login" in
  app_mounted (app signed_in) = false
  /\ app_user (app (run [AppMount;
                         AuthStateChange "SIGNED_OUT" None;
                         GetSessionSettled] signed_in))
     = Some (mkUser "uid-a@b.com" "a@b.com")
  /\ app_mounted (app signed_out) = false
  /\ app_user (app (run [AppMount;
                         AuthStateChange "SIGNED_IN" Mem.alice_session;
                         GetSessionSettled] signed_out))
     = None
  /\ app_mounted (app rejected) = false
  /\ app_user (app (run [AppMount;
                         AuthStateChange "SIGNED_IN" Mem.alice_session;
                         GetSessionSettled] rejected))
     = Some (mkUser "uid-a@b.com" "a@b.com").
Proof.
  assert (app_mounted (app (initial Mem.alice_signed_in "/dashboard")) = false)
    as Hin by reflexivity.
  assert (app_mounted (app (initial Mem.alice_signed_out "/login")) = false)
    as Hout by reflexivity.
  assert (app_mounted (app (initial Canned.fetch_rejected "/login")) = false)
    as Hrej by reflexivity.
  split; [exact Hin|].
  split; [exact (late_fetch_overrides_notification
                   (initial Mem.alice_signed_in "/dashboard")
                   "SIGNED_OUT" None Hin)|].
  split; [exact Hout|].
  split; [exact (late_fetch_overrides_notification
                   (initial Mem.alice_signed_out "/login")
                   "SIGNED_IN" Mem.alice_session Hout)|].
  split; [exact Hrej|].
  exact (late_fetch_overrides_notification
           (initial Canned.fetch_rejected "/login")
           "SIGNED_IN" Mem.alice_session Hrej).
Defined.
